(** * vCard Menu Helper: icon resolution and record flattening

    A shallow embedding of [menu-helper.ts] (the TypeScript and the
    JavaScript builds are the same program), with the properties of its
    image classification, icon-link generation, resolution routing and
    menu flattening.

    Conventions of the embedding:
    - a JavaScript string is a [string] (a sequence of 8-bit code units);
    - a value that is either a string or [undefined] is an [option string]
      ([None] is [undefined]);
    - a JavaScript number that the program uses as an integer (the icon
      weight, a numeric node id) is a [Z], printed in decimal: this is
      what the program does on the integers a double holds exactly
      ([safeInteger]: up to 2^53 in absolute value); beyond them
      [parseInt] rounds and, from 10^21, Number::toString prints an
      exponent, so a property that reads the digits of a number carries
      [safeInteger] as a hypothesis;
    - the host services (synchronous XHR, DOM parser and serializer,
      [btoa], canvas, [Math.random]) are parameters of a section, and every
      call to one of them is recorded in a log. *)

From Stdlib Require Import ZArith Ascii String List Bool Lia DecimalString DecimalZ.
From Stdlib Require HexadecimalString.
From stdpp Require Import base option strings gmap.
Import ListNotations.

Local Open Scope string_scope.
Local Open Scope Z_scope.

Set Warnings "-register-all".

#[local] Arguments String.append !s1 s2 : simpl nomatch.

(** ** JavaScript values *)

Module Js.

(** A string or [undefined]. *)
Definition Str := option string.

Definition undefined : Str := None.

(** ToBoolean on a string or [undefined]. *)
Definition truthy (v : Str) : bool :=
  match v with
  | None => false
  | Some "" => false
  | Some _ => true
  end.

(** [a || b] *)
Definition or (a b : Str) : Str := if truthy a then a else b.

(** [a && b] *)
Definition and (a b : Str) : Str := if truthy a then b else a.

(** ToString, as a template literal applies it. *)
Definition toString (v : Str) : string :=
  match v with
  | None => "undefined"
  | Some s => s
  end.

(** [a === b] for two values that are strings or [undefined]. *)
Definition strictEq (a b : Str) : bool :=
  match a, b with
  | None, None => true
  | Some x, Some y => String.eqb x y
  | _, _ => false
  end.

(** The integers a double holds exactly, every one of them. *)
Definition safeInteger (n : Z) : Prop := - 2 ^ 53 <= n <= 2 ^ 53.

(** Number::toString on an integer: its decimal digits. The code prints
    the same on a [safeInteger] (and an exponent from 10^21). *)
Definition numToString (n : Z) : string :=
  NilZero.string_of_int (Z.to_int n).

(** [s.includes(sep)] *)
Fixpoint includes (s sep : string) : bool :=
  String.prefix sep s ||
  match s with
  | EmptyString => false
  | String _ s' => includes s' sep
  end.

(** The scan of [s.split(sep)] for a non-empty [sep]: [cur] is the piece
    being built, [skip] the number of code units of a matched separator
    still to pass over. *)
Fixpoint split_go (sep s cur : string) (skip : nat) : list string :=
  match s with
  | EmptyString => [cur]
  | String c s' =>
      match skip with
      | S k => split_go sep s' cur k
      | O =>
          if String.prefix sep s
          then cur :: split_go sep s' "" (String.length sep - 1)
          else split_go sep s' (cur +:+ String c "") 0
      end
  end.

(** [s.split(sep)]: with the empty separator, the code units one by one. *)
Definition split (s sep : string) : list string :=
  match sep with
  | EmptyString => List.map (fun c => String c "") (list_ascii_of_string s)
  | _ => split_go sep s "" 0
  end.

(** Array destructuring and indexing: a missing element is [undefined]. *)
Definition at_ (l : list string) (i : nat) : Str := nth_error l i.

End Js.

(** ** Icon reference: separator *)

Definition separators : list string :=
  [";"; ":"; "|"; "/"; "="; "+"; "*"; ","; "."; "#"].

Definition getIconSeparator (icon : Js.Str) : Js.Str :=
  if negb (Js.truthy icon) then Js.undefined
  else List.find (fun separator => Js.includes (Js.toString icon) separator)
                 separators.

(** ** [parseInt] *)

(** StrWhiteSpaceChar, for the code units a [string] can hold. *)
Definition isWhiteSpace (c : ascii) : bool :=
  let n := nat_of_ascii c in
  ((9 <=? n) && (n <=? 13) || (n =? 32) || (n =? 160))%nat.

Fixpoint trimStart (s : string) : string :=
  match s with
  | String c s' => if isWhiteSpace c then trimStart s' else s
  | EmptyString => s
  end.

(** The value of a digit in radix 36 or less. *)
Definition digitValue (c : ascii) : option Z :=
  let n := Z.of_nat (nat_of_ascii c) in
  if (48 <=? n) && (n <=? 57) then Some (n - 48)
  else if (97 <=? n) && (n <=? 122) then Some (n - 87)
  else if (65 <=? n) && (n <=? 90) then Some (n - 55)
  else None.

(** The longest prefix of radix-[radix] digits, as a number; [None] when
    there is no digit at all. *)
Fixpoint parseDigits (radix : Z) (s : string) (acc : option Z) : option Z :=
  match s with
  | String c s' =>
      match digitValue c with
      | Some d =>
          if d <? radix
          then parseDigits radix s' (Some (radix * default 0 acc + d))
          else acc
      | None => acc
      end
  | EmptyString => acc
  end.

(** [parseInt(v)], with no radix argument; [None] is [NaN]. The value is
    the exact integer of the digits: the code returns the same whenever it
    is a [Js.safeInteger], and the nearest double beyond. *)
Definition parseInt (v : Js.Str) : option Z :=
  let s := trimStart (Js.toString v) in
  let '(sign, s1) :=
    match s with
    | String "-" r => (-1, r)
    | String "+" r => (1, r)
    | _ => (1, s)
    end in
  let '(radix, s2) :=
    match s1 with
    | String "0" (String "x" r) => (16, r)
    | String "0" (String "X" r) => (16, r)
    | _ => (10, s1)
    end in
  Z.mul sign <$> parseDigits radix s2 None.

(** [n || d] for a number [n] that may be [NaN]: zero and [NaN] are falsy. *)
Definition numOr (n : option Z) (d : Z) : Z :=
  match n with
  | Some k => if k =? 0 then d else k
  | None => d
  end.

(** ** Data model *)

Inductive NodeId :=
  | IdStr (s : string)
  | IdNum (n : Z).

(** The id as a template literal or a property key renders it. *)
Definition idToString (i : NodeId) : string :=
  match i with
  | IdStr s => s
  | IdNum n => Js.numToString n
  end.

(** A promise of a payload: fulfilled with a value, never settled (the
    canvas image of [convertSvgToPng] that never fires [onload]), or
    rejected (the executor of [convertSvgToPng] threw, or the caller put
    a rejected promise on the node). *)
Inductive Promise :=
  | Fulfilled (v : Js.Str)
  | Unsettled
  | Rejected.

Inductive MenuNode := mkMenuNode {
  id : NodeId;
  title : string;
  subtitle : Js.Str;
  children : option (list MenuNode);
  icon : Js.Str;
  base64 : Js.Str;
  imageUrl : Js.Str;
  base64Promise : option Promise
}.

Record SvgColors := mkSvgColors {
  iconColor : Js.Str;
  bgColor : Js.Str
}.

Record ImageInfo := mkImageInfo {
  type : Js.Str;
  source : Js.Str;
  svgColors : option SvgColors
}.

Record ImageDataInfo := mkImageDataInfo {
  base64Data : string;
  mimeType : string
}.

Record InitialParameters := mkInitialParameters {
  iconsSize : option Z;
  iconsColor : Js.Str;
  iconsBgColor : Js.Str;
  iconsWeight : option Z;
  shadowColor : Js.Str;
  shadowBlur : option Z;
  shadowOffsetX : option Z;
  shadowOffsetY : option Z
}.

(** The global variables [prepareVariables] assigns. The canvas geometry
    ([CTX_OFFSET], [CTX_HALF_OFFSET], [CTX_SIZE], [CTX_RADIUS]) is a
    floating-point function of [IMAGE_SIZE] alone and is left to the canvas
    service, which receives the whole record. *)
Record Globals := mkGlobals {
  MENU : list MenuNode;
  ICONS_COLOR : string;
  ICONS_BACKGROUND : Js.Str;
  ICONS_WEIGHT : Z;
  IMAGE_SIZE : Z;
  CTX_SHADOW_BLUR : Z;
  CTX_SHADOW_OFFSET_X : Z;
  CTX_SHADOW_OFFSET_Y : Z;
  CTX_SHADOW_COLOR : string
}.

Definition IMAGE_DATA_INFO : list (string * ImageDataInfo) :=
  [ ("svg", {| base64Data := "image/svg+xml"; mimeType := "image/svg+xml" |});
    ("jpg", {| base64Data := "image/jpeg";
               mimeType := "text/plain; charset=x-user-defined" |}) ].

(** [IMAGE_DATA_INFO.get(t)] *)
Definition IMAGE_DATA_INFO_get (t : Js.Str) : option ImageDataInfo :=
  snd <$> List.find (fun entry => Js.strictEq t (Some (fst entry))) IMAGE_DATA_INFO.

(** ** Execution *)

Definition prepareVariables (menuItems : option (list MenuNode))
    (parameters : InitialParameters) : Globals :=
  {| MENU := default [] menuItems;
     IMAGE_SIZE := numOr (iconsSize parameters) 93;
     ICONS_COLOR := Js.toString (Js.or (iconsColor parameters) (Some "white"));
     ICONS_BACKGROUND := iconsBgColor parameters;
     ICONS_WEIGHT := numOr (iconsWeight parameters) 400;
     CTX_SHADOW_COLOR :=
       Js.toString (Js.or (shadowColor parameters) (Some "rgba(0 0 0 / 20%)"));
     CTX_SHADOW_BLUR := numOr (shadowBlur parameters) 0;
     CTX_SHADOW_OFFSET_X := numOr (shadowOffsetX parameters) 0;
     CTX_SHADOW_OFFSET_Y := numOr (shadowOffsetY parameters) 0 |}.

(** ** Update items: classification *)

Definition cutBase64DataType (base64 : Js.Str) : Js.Str :=
  if negb (Js.truthy base64) || negb (Js.includes (Js.toString base64) "base64,")
  then base64
  else Js.at_ (Js.split (Js.toString base64) "base64,") 1.

Definition iconHost : string :=
  "https://fonts.gstatic.com/s/i/short-term/release/materialsymbols".

Definition getMaterialIconLink (icon : Js.Str) (weight : Z) (style : Js.Str)
    : string :=
  let iconWeight :=
    if weight =? 400 then "default" else "wght" +:+ Js.numToString weight in
  let iconStyle :=
    if negb (Js.strictEq style (Some "rounded"))
       && negb (Js.strictEq style (Some "outlined"))
    then "rounded" else Js.toString style in
  iconHost +:+ iconStyle +:+ "/" +:+ Js.toString icon +:+ "/" +:+ iconWeight
    +:+ "/48px.svg".

Definition getMaterialIcon (g : Globals) (icon : Js.Str) : Js.Str :=
  if negb (Js.truthy icon) then Js.undefined
  else
    let separator := getIconSeparator icon in
    if negb (Js.truthy separator)
    then Some (getMaterialIconLink icon (ICONS_WEIGHT g) Js.undefined)
    else
      let parts := Js.split (Js.toString icon) (Js.toString separator) in
      let iconName := Js.at_ parts 0 in
      let iconWeight := Js.at_ parts 3 in
      let iconStyle := Js.at_ parts 4 in
      Some (getMaterialIconLink iconName
              (numOr (parseInt iconWeight) (ICONS_WEIGHT g)) iconStyle).

Definition getSvgColors (icon : Js.Str) : option SvgColors :=
  if negb (Js.truthy icon) then None
  else
    let separator := getIconSeparator icon in
    if negb (Js.truthy separator) then None
    else
      let parts := Js.split (Js.toString icon) (Js.toString separator) in
      Some {| iconColor := Js.at_ parts 1; bgColor := Js.at_ parts 2 |}.

(** The [imageInfo] constant that [updateMenuItems] builds for one item. *)
Definition imageInfo (g : Globals) (menuItem : MenuNode) : ImageInfo :=
  {| type :=
       Js.or (Js.or (Js.and (base64 menuItem) (Some "base64"))
                    (Js.and (icon menuItem) (Some "svg")))
             (Js.and (imageUrl menuItem) (Some "jpg"));
     source :=
       Js.or (Js.or (cutBase64DataType (base64 menuItem))
                    (getMaterialIcon g (icon menuItem)))
             (imageUrl menuItem);
     svgColors := getSvgColors (icon menuItem) |}.

Definition deleteItemProperties (item : MenuNode) : MenuNode :=
  {| id := id item;
     title := title item;
     subtitle := if negb (Js.truthy (subtitle item)) then None else subtitle item;
     children :=
       match children item with
       | Some (_ :: _) => children item
       | _ => None
       end;
     icon := None;
     base64 := None;
     imageUrl := None;
     base64Promise := base64Promise item |}.

(** ** Colours

    [Math.random()] is a floating-point number of [0, 1). The colour
    functions use it only through [Math.floor(Math.random() * n)] and
    [Math.round(Math.random())]; these integers are what the functions
    below receive, one per iteration of the loop. *)

(** Number::toString(16) on an integer. *)
Definition numToString16 (n : Z) : string :=
  HexadecimalString.NilZero.string_of_int (Z.to_hex_int n).

(** [s[k]] *)
Definition charAt (s : string) (k : Z) : Js.Str :=
  if (0 <=? k) && (k <? Z.of_nat (String.length s))
  then (fun c => String c "") <$> String.get (Z.to_nat k) s
  else None.

(** [floor128 i] is [Math.floor(Math.random() * 128)] in iteration [i]. *)
Definition generatePastelHexColor (floor128 : nat -> Z) : string :=
  fold_left
    (fun color i =>
       let pastelValue := floor128 i + 128 in
       let hexValue := numToString16 pastelValue in
       color +:+ hexValue)
    (seq 0 3) "#".

(** [floorLetters i] is [Math.floor(Math.random() * letters.length)] in
    iteration [i]. *)
Definition getRandomSoftPastelColor (floorLetters : nat -> Z) : string :=
  let letters := "3456789ABCDEF" in
  fold_left
    (fun color i => color +:+ Js.toString (charAt letters (floorLetters i)))
    (seq 0 6) "#".

(** The body of [getRandomColor] on its draws; [coin] is
    [Math.round(Math.random())]. *)
Definition getRandomColorFrom (coin : Z) (floor128 floorLetters : nat -> Z)
    : string :=
  if negb (coin =? 0) then generatePastelHexColor floor128
  else getRandomSoftPastelColor floorLetters.

(** The draws of one call of [getRandomColor], as the integers the colour
    functions make of them. *)
Record RandomDraws := mkRandomDraws {
  coin : Z;
  floor128 : nat -> Z;
  floorLetters : nat -> Z
}.

(** ** Host services and effects *)

Inductive XhrResult :=
  | NetworkFailure
  | Response (status : Z) (responseText : string).

(** The serialized document, as [encodeURIComponent] and [btoa] take it:
    a text of code units up to 255, which a [string] holds; a text with a
    code unit above 255, which [btoa] refuses; or a text with a lone
    surrogate, which [encodeURIComponent] refuses. *)
Inductive Serialized :=
  | Latin1 (svgString : string)
  | NotLatin1
  | LoneSurrogate.

(** What becomes of the canvas tile: the image loads and the tile is
    exported; the image never fires [onload]; or the executor throws
    before that (a context without [roundRect], no 2d context). *)
Inductive Drawing :=
  | Drawn (dataURL : string)
  | NeverLoads
  | ExecutorThrows.

(** What the browser provides. [xhr_send url mime] is the synchronous
    [open]/[overrideMimeType]/[send] exchange; [recolorSvg text mime color]
    parses [text] as a document of type [mime], sets [fill] and [stroke] of
    every [path] to [color] and serializes it back; [btoa] encodes a text
    of code units up to 255; [canvasToDataURL] fills the rounded tile with
    a style, waits for the image source to load, draws it and exports the
    tile; [mathRandom] is what [Math.random] gives over one call of
    [getRandomColor]. *)
Record Platform := mkPlatform {
  World : Type;
  xhr_send : World -> Js.Str -> string -> World * XhrResult;
  recolorSvg : string -> string -> string -> Serialized;
  btoa : string -> string;
  canvasToDataURL : World -> Globals -> string -> string -> World * Drawing;
  mathRandom : World -> World * RandomDraws
}.

Inductive Event :=
  | EvXhr (url : Js.Str) (mime : string)
  | EvRecolor
  | EvBtoa
  | EvRandomColor
  | EvCanvas.

Inductive Exn :=
  | TypeError
  | NetworkError
  | URIError
  | InvalidCharacterError.

Inductive Completion (A : Type) :=
  | Normal (a : A)
  | Throw (e : Exn).

Arguments Normal {A} a.
Arguments Throw {A} e.

Section Effects.

Context (P : Platform).

Record Host := mkHost {
  world : World P;
  log : list Event
}.

(** A computation reads and updates the host and completes normally or
    abruptly. *)
Definition M (A : Type) : Type := Host -> Host * Completion A.

Definition ret {A} (a : A) : M A := fun h => (h, Normal a).

Definition throw {A} (e : Exn) : M A := fun h => (h, Throw e).

Definition bind {A B} (c : M A) (k : A -> M B) : M B :=
  fun h =>
    match c h with
    | (h', Normal a) => k a h'
    | (h', Throw e) => (h', Throw e)
    end.

Definition emit (e : Event) : M unit :=
  fun h => ({| world := world h; log := log h ++ [e] |}, Normal tt).

Definition liftWorld {A} (f : World P -> World P * A) : M A :=
  fun h => let '(w, a) := f (world h) in
           ({| world := w; log := log h |}, Normal a).

End Effects.

Arguments ret {P A} a.
Arguments throw {P A} e.
Arguments bind {P A B} c k.
Arguments emit {P} e.
Arguments liftWorld {P A} f.
Arguments world {P} h.
Arguments log {P} h.
Arguments mkHost {P} world log.

Notation "x <- c ;; k" := (bind c (fun x => k))
  (at level 100, c at next level, right associativity).
Notation "c ;;; k" := (bind c (fun _ => k))
  (at level 100, right associativity).

(** ** Transformation and async actions *)

Section Resolution.

Context (P : Platform).

(** [info.field]: reading a property of [undefined] is a TypeError. *)
Definition prop {A} (info : option ImageDataInfo) (field : ImageDataInfo -> A)
    : M P A :=
  match info with
  | None => throw TypeError
  | Some i => ret (field i)
  end.

Definition getImageFromUrl (url : Js.Str) (info : option ImageDataInfo)
    : M P Js.Str :=
  mime <- prop info mimeType ;;
  emit (EvXhr url mime) ;;;
  r <- liftWorld (fun w => xhr_send P w url mime) ;;
  match r with
  | NetworkFailure => throw NetworkError
  | Response status responseText =>
      if negb (status =? 200) then ret Js.undefined
      else ret (Some responseText)
  end.

Definition getColorizedSvgBase64 (g : Globals) (imageResponse : string)
    (image : ImageInfo) (info : option ImageDataInfo) : M P Js.Str :=
  if negb (Js.strictEq (type image) (Some "svg")) then ret Js.undefined
  else
    mime <- prop info base64Data ;;
    let color :=
      Js.toString (Js.or (svgColors image ≫= iconColor) (Some (ICONS_COLOR g))) in
    emit EvRecolor ;;;
    match recolorSvg P imageResponse mime color with
    | LoneSurrogate => throw URIError
    | NotLatin1 => emit EvBtoa ;;; throw InvalidCharacterError
    | Latin1 svgString => emit EvBtoa ;;; ret (Some (btoa P svgString))
    end.

(** [String.fromCharCode(c & 0xff)] on every code unit of a [string]: on
    these 8-bit code units the mask changes nothing; [lowByteUnits] is the
    same loop on 16-bit code units, where it does. *)
Fixpoint lowBytes (s : string) : string :=
  match s with
  | EmptyString => EmptyString
  | String c s' =>
      String (ascii_of_N (N.land (N_of_ascii c) 255)) (lowBytes s')
  end.



Definition getImageBas64 (imageResponse : string) : M P Js.Str :=
  let binary := lowBytes imageResponse in
  emit EvBtoa ;;;
  ret (Some (btoa P binary)).

Definition getRandomColor : M P Js.Str :=
  emit EvRandomColor ;;;
  draws <- liftWorld (mathRandom P) ;;
  ret (Some (getRandomColorFrom (coin draws) (floor128 draws)
               (floorLetters draws))).

Definition convertSvgToPng (g : Globals) (base64 : Js.Str) (image : ImageInfo)
    (info : option ImageDataInfo) : M P Promise :=
  let fixed := Js.or (svgColors image ≫= bgColor) (ICONS_BACKGROUND g) in
  fillStyle <- (if Js.truthy fixed then ret fixed else getRandomColor) ;;
  mime <- prop info base64Data ;;
  emit EvCanvas ;;;
  let src := "data:" +:+ mime +:+ ";base64," +:+ Js.toString base64 in
  dataURL <- liftWorld
    (fun w => canvasToDataURL P w g (Js.toString fillStyle) src) ;;
  match dataURL with
  | Drawn url => ret (Fulfilled (Some url))
  | NeverLoads => ret Unsettled
  | ExecutorThrows => ret Rejected
  end.

Definition convertImageUrlToBase64 (g : Globals) (image : ImageInfo)
    : M P Promise :=
  if Js.strictEq (type image) (Some "base64")
  then ret (Fulfilled (source image))
  else
    let info := IMAGE_DATA_INFO_get (type image) in
    imageResponse <- getImageFromUrl (source image) info ;;
    if negb (Js.truthy imageResponse) then ret (Fulfilled (Some ""))
    else
      colorized <- getColorizedSvgBase64 g (Js.toString imageResponse) image info ;;
      base64 <- (if Js.truthy colorized then ret colorized
                 else getImageBas64 (Js.toString imageResponse)) ;;
      if Js.strictEq (type image) (Some "svg")
      then convertSvgToPng g base64 image info
      else ret (Fulfilled base64).

(** ** Update items: the decorator *)

Fixpoint updateMenuItem (g : Globals) (menuItem : MenuNode) : M P MenuNode :=
  let image := imageInfo g menuItem in
  let item := deleteItemProperties menuItem in
  promise <- convertImageUrlToBase64 g image ;;
  let forEach :=
    fix forEach (items : list MenuNode) : M P (list MenuNode) :=
      match items with
      | [] => ret []
      | x :: rest =>
          x' <- updateMenuItem g x ;;
          rest' <- forEach rest ;;
          ret (x' :: rest')
      end in
  kids <- match children menuItem with
          | Some (c :: cs) => cs' <- forEach (c :: cs) ;; ret (Some cs')
          | _ => ret None
          end ;;
  ret {| id := id item; title := title item; subtitle := subtitle item;
         children := kids;
         icon := icon item; base64 := base64 item; imageUrl := imageUrl item;
         base64Promise := Some promise |}.

Fixpoint updateMenuItems (g : Globals) (menuItems : list MenuNode)
    : M P (list MenuNode) :=
  match menuItems with
  | [] => ret []
  | x :: rest =>
      x' <- updateMenuItem g x ;;
      rest' <- updateMenuItems g rest ;;
      ret (x' :: rest')
  end.

End Resolution.

(** ** Convert to contacts *)

Definition nl : string := String (ascii_of_nat 10) EmptyString.

(** [await item.base64Promise]: the value the function goes on with, or
    [None] when it does not go on: the promise never settles, or it is
    rejected and [await] throws. Awaiting a missing promise gives
    [undefined]. *)
Definition await (p : option Promise) : option Js.Str :=
  match p with
  | None => Some Js.undefined
  | Some (Fulfilled v) => Some v
  | Some Unsettled => None
  | Some Rejected => None
  end.

Definition getMenuList (item : MenuNode) : option string :=
  base64Response ← await (base64Promise item);
  let base64 := cutBase64DataType base64Response in
  let org :=
    if Js.truthy (subtitle item)
    then "ORG:" +:+ Js.toString (subtitle item) +:+ nl else "" in
  let photo :=
    if Js.truthy base64
    then "PHOTO;BASE64:" +:+ Js.toString base64 +:+ nl else "" in
  Some ("BEGIN:VCARD" +:+ nl +:+ "VERSION:4.0" +:+ nl +:+ "N:" +:+ title item
        +:+ nl +:+ "NOTE:" +:+ idToString (id item) +:+ nl +:+ org +:+ photo
        +:+ "END:VCARD" +:+ nl).

(** The properties every object literal inherits from [Object.prototype],
    each as [String] renders it: the native methods by their source text,
    the [__proto__] accessor by the prototype object it returns. *)
Definition nativeSource (name : string) : string :=
  "function " +:+ name +:+ "() { [native code] }".

Definition Object_prototype (k : string) : Js.Str :=
  if bool_decide (k = "constructor") then Some (nativeSource "Object")
  else if bool_decide (k = "__proto__") then Some "[object Object]"
  else if bool_decide
       (k ∈ ["__defineGetter__"; "__defineSetter__"; "__lookupGetter__";
             "__lookupSetter__"; "hasOwnProperty"; "isPrototypeOf";
             "propertyIsEnumerable"; "toLocaleString"; "toString"; "valueOf"])
  then Some (nativeSource k)
  else None.

(** [result[key]] on the object literal [result], whose own properties are
    the map. *)
Definition getProp (result : gmap string string) (key : string) : Js.Str :=
  match result !! key with
  | Some v => Some v
  | None => Object_prototype key
  end.

(** [result[key] = v]: assigning a string to [__proto__] reaches the
    inherited setter, which ignores it. *)
Definition setProp (result : gmap string string) (key v : string)
    : gmap string string :=
  if bool_decide (key = "__proto__") then result else <[key := v]> result.

(** [flatten(node, key)] on [result]: the mapping it leaves, or [None]
    when it does not return: an [await] of the subtree never resumes, or
    throws on a rejected promise. *)
Fixpoint flatten (node : MenuNode) (key : string) (result : gmap string string)
    : option (gmap string string) :=
  let result1 :=
    if negb (Js.truthy (getProp result key)) then setProp result key ""
    else result in
  let old := getProp result1 key in
  block ← getMenuList node;
  let result2 := setProp result1 key (Js.toString old +:+ block) in
  match children node with
  | Some (c :: cs) =>
      (fix each (nodes : list MenuNode) (r : gmap string string) :=
         match nodes with
         | [] => Some r
         | childNode :: rest =>
             r' ← flatten childNode (idToString (id node)) r;
             each rest r'
         end) (c :: cs) result2
  | _ => Some result2
  end.

(** A [for ... of] loop of [await flatten(node, key)]. *)
Fixpoint flattenAll (key : string) (nodes : list MenuNode)
    (result : gmap string string) : option (gmap string string) :=
  match nodes with
  | [] => Some result
  | node :: rest =>
      r' ← flatten node key result;
      flattenAll key rest r'
  end.

Definition flattenMenuOptions (options : list MenuNode)
    : option (gmap string string) :=
  flattenAll "#root" options ∅.

(** ** Vocabulary of the properties *)

(** [sep] occurs in [s], at any position. *)
Definition occurs (sep s : string) : Prop :=
  exists a b, s = a +:+ sep +:+ b.

(** The last but [i] path segment of a link. *)
Definition segmentFromEnd (link : string) (i : nat) : option string :=
  nth_error (rev (Js.split link "/")) i.

(** The weight segment the link builder writes. *)
Definition weightSegment (weight : Z) : string :=
  if weight =? 400 then "default" else "wght" +:+ Js.numToString weight.

(** The weight an icon reference resolves to: its fourth field when that
    parses to a non-zero integer, the configured weight otherwise. *)
Definition resolvedWeight (g : Globals) (icon : Js.Str) : Z :=
  match getIconSeparator icon with
  | Some separator =>
      numOr (parseInt (Js.at_ (Js.split (Js.toString icon) separator) 3))
            (ICONS_WEIGHT g)
  | None => ICONS_WEIGHT g
  end.


(** A field is set when it holds a non-empty string. *)
Definition moreThanOneSet (n : MenuNode) : bool :=
  (Js.truthy (base64 n) && Js.truthy (icon n))
  || (Js.truthy (base64 n) && Js.truthy (imageUrl n))
  || (Js.truthy (icon n) && Js.truthy (imageUrl n)).

(** The kind by priority: inline data, then icon reference, then remote
    link. *)
Definition priorityKind (n : MenuNode) : string :=
  if Js.truthy (base64 n) then "base64"
  else if Js.truthy (icon n) then "svg"
  else "jpg".

(** The node with its losing fields removed. *)
Definition keepWinner (n : MenuNode) : MenuNode :=
  {| id := id n; title := title n; subtitle := subtitle n;
     children := children n;
     icon := if Js.truthy (base64 n) then None else icon n;
     base64 := base64 n;
     imageUrl :=
       if Js.truthy (base64 n) || Js.truthy (icon n) then None else imageUrl n;
     base64Promise := base64Promise n |}.

(** The records of a node and of its descendants in depth-first pre-order,
    each with the key it is grouped under: the given key for the node, the
    node's id for its children. *)
Fixpoint records (key : string) (node : MenuNode) : list (string * MenuNode) :=
  (key, node) ::
  match children node with
  | Some nodes =>
      (fix each (l : list MenuNode) : list (string * MenuNode) :=
         match l with
         | [] => []
         | childNode :: rest =>
             (records (idToString (id node)) childNode ++ each rest)%list
         end) nodes
  | None => []
  end.

Fixpoint recordsAll (key : string) (nodes : list MenuNode)
    : list (string * MenuNode) :=
  match nodes with
  | [] => []
  | node :: rest => (records key node ++ recordsAll key rest)%list
  end.






(** ** Sample hosts, configurations and menus *)

(** A host that answers every request with 404. *)
Definition offline : Platform :=
  {| World := unit;
     xhr_send := fun w _ _ => (w, Response 404 "Not Found");
     recolorSvg := fun text _ _ => Latin1 text;
     btoa := fun s => s;
     canvasToDataURL := fun w _ _ _ => (w, NeverLoads);
     mathRandom := fun w =>
       (w, mkRandomDraws 1 (fun i => nth i [43; 77; 111] 0) (fun _ => 0)) |}.

Definition noParameters : InitialParameters :=
  mkInitialParameters None None None None None None None None.

Definition defaults : Globals := prepareVariables None noParameters.

Definition start : Host offline := mkHost (tt : World offline) [].

(** [{ id, title }] with the three image fields as given. *)
Definition item (i t : string) (ic b64 url : Js.Str) : MenuNode :=
  mkMenuNode (IdStr i) t None None ic b64 url None.

(** A configuration that sets the icon weight to 700. *)
Definition heavy : Globals :=
  prepareVariables None
    (mkInitialParameters None None None (Some 700) None None None None).

(** [{ id: "a", title: "A", base64: "AAAA" }] after one pass of the
    decorator. *)
Definition decoratedOnce : MenuNode :=
  mkMenuNode (IdStr "a") "A" None None None None None
    (Some (Fulfilled (Some "AAAA"))).

(** A parent with inline data and one child with inline data; [parent] is
    the parent's id. *)
Definition shadowing (parent : string) : list MenuNode :=
  [ mkMenuNode (IdStr parent) "P" None
      (Some [item "c" "C" None (Some "BBBB") None])
      None (Some "AAAA") None None ].

(** The same menu once decorated. *)
Definition shadowingDecorated (parent : string) : list MenuNode :=
  [ mkMenuNode (IdStr parent) "P" None
      (Some [ mkMenuNode (IdStr "c") "C" None None None None None
                (Some (Fulfilled (Some "BBBB"))) ])
      None None None (Some (Fulfilled (Some "AAAA"))) ].

Definition parentBlock (parent : string) : string :=
  "BEGIN:VCARD" +:+ nl +:+ "VERSION:4.0" +:+ nl +:+ "N:P" +:+ nl
  +:+ "NOTE:" +:+ parent +:+ nl +:+ "PHOTO;BASE64:AAAA" +:+ nl
  +:+ "END:VCARD" +:+ nl.

Definition childBlock : string :=
  "BEGIN:VCARD" +:+ nl +:+ "VERSION:4.0" +:+ nl +:+ "N:C" +:+ nl
  +:+ "NOTE:c" +:+ nl +:+ "PHOTO;BASE64:BBBB" +:+ nl +:+ "END:VCARD" +:+ nl.

(** ** Vocabulary of the further properties *)

(** The first piece that [split_go] yields on [s] after passing over [skip]
    code units, when it starts from an empty current piece. *)
Fixpoint firstPiece (sep s : string) (skip : nat) : string :=
  match s with
  | EmptyString => EmptyString
  | String c s' =>
      match skip with
      | S k => firstPiece sep s' k
      | O => if String.prefix sep s then EmptyString
             else String c (firstPiece sep s' 0)
      end
  end.

(** The fields of an icon reference written one after the other with the
    separator between them. *)
Fixpoint join (sep : string) (fields : list string) : string :=
  match fields with
  | [] => ""
  | [f] => f
  | f :: rest => f +:+ sep +:+ join sep rest
  end.

(** The value of a sequence of decimal digits read after the value [acc]. *)
Fixpoint digitsValue (d : Decimal.uint) (acc : Z) : Z :=
  match d with
  | Decimal.Nil => acc
  | Decimal.D0 d => digitsValue d (10 * acc)
  | Decimal.D1 d => digitsValue d (10 * acc + 1)
  | Decimal.D2 d => digitsValue d (10 * acc + 2)
  | Decimal.D3 d => digitsValue d (10 * acc + 3)
  | Decimal.D4 d => digitsValue d (10 * acc + 4)
  | Decimal.D5 d => digitsValue d (10 * acc + 5)
  | Decimal.D6 d => digitsValue d (10 * acc + 6)
  | Decimal.D7 d => digitsValue d (10 * acc + 7)
  | Decimal.D8 d => digitsValue d (10 * acc + 8)
  | Decimal.D9 d => digitsValue d (10 * acc + 9)
  end.

(** A node as the decorator leaves it: no source field, a promise, no
    empty subtitle, no empty list of children, and children that are
    decorated too. *)
Fixpoint decorated (n : MenuNode) : bool :=
  match icon n, base64 n, imageUrl n, base64Promise n with
  | None, None, None, Some _ => true
  | _, _, _, _ => false
  end
  && match subtitle n with
     | Some s => Js.truthy (Some s)
     | None => true
     end
  && match children n with
     | Some [] => false
     | Some nodes =>
         (fix all (l : list MenuNode) : bool :=
            match l with
            | [] => true
            | x :: rest => decorated x && all rest
            end) nodes
     | None => true
     end.

(** What the record formatter and the grouping read of a record, apart
    from the payload: the key, the id, the title and the subtitle when it
    is not empty. *)
Definition label (r : string * MenuNode) : string * NodeId * string * Js.Str :=
  (fst r, id (snd r), title (snd r),
   if Js.truthy (subtitle (snd r)) then subtitle (snd r) else None).

(** The promise of a record is fulfilled, or the record has none: [await]
    gives a value. *)
Definition fulfilled (r : string * MenuNode) : Prop :=
  is_Some (await (base64Promise (snd r))).

(** Every node of the subtree has inline data. *)
Fixpoint inlineOnly (n : MenuNode) : bool :=
  Js.truthy (base64 n)
  && match children n with
     | Some nodes =>
         (fix all (l : list MenuNode) : bool :=
            match l with
            | [] => true
            | x :: rest => inlineOnly x && all rest
            end) nodes
     | None => true
     end.

Definition isHexDigit (c : ascii) : bool :=
  let n := nat_of_ascii c in
  ((48 <=? n) && (n <=? 57) || (65 <=? n) && (n <=? 70)
   || (97 <=? n) && (n <=? 102))%nat.

(** [#] and six hexadecimal digits. *)
Definition isHexColor (s : string) : bool :=
  match s with
  | String "#" digits =>
      (String.length digits =? 6)%nat
      && forallb isHexDigit (list_ascii_of_string digits)
  | _ => false
  end.

(** Two hexadecimal digits, the first of them 8 or more. *)
Definition isLightChannel (s : string) : bool :=
  match s with
  | String a (String b "") =>
      isHexDigit a && isHexDigit b && (56 <=? nat_of_ascii a)%nat
  | _ => false
  end.

(** A node has an image source: one of its three fields is not empty. *)
Definition hasSource (n : MenuNode) : bool :=
  Js.truthy (base64 n) || Js.truthy (icon n) || Js.truthy (imageUrl n).

(** The number of requests in a log. *)
Fixpoint requests (l : list Event) : nat :=
  match l with
  | [] => 0%nat
  | EvXhr _ _ :: rest => S (requests rest)
  | _ :: rest => requests rest
  end.

(** The number of records whose node has no inline data. *)
Fixpoint notInline (rs : list (string * MenuNode)) : nat :=
  match rs with
  | [] => 0%nat
  | r :: rest =>
      ((if Js.truthy (base64 (snd r)) then 0 else 1) + notInline rest)%nat
  end.

(** A host that answers every request with a small document, marks what
    it recolours and encodes, and exports a tile for every image. *)
Definition online : Platform :=
  {| World := nat;
     xhr_send := fun w _ _ => (S w, Response 200 "<svg><path/></svg>");
     recolorSvg := fun text _ color => Latin1 (text +:+ "<!--" +:+ color +:+ "-->");
     btoa := fun s => "b64:" +:+ s;
     canvasToDataURL := fun w _ fill _ => (w, Drawn ("data:image/png;base64," +:+ fill));
     mathRandom := fun w =>
       (w, mkRandomDraws 1 (fun i => nth i [43; 77; 111] 0) (fun _ => 0)) |}.

(** A host that answers every request with status 200 and no body. *)
Definition silent : Platform :=
  {| World := unit;
     xhr_send := fun w _ _ => (w, Response 200 "");
     recolorSvg := fun text _ _ => Latin1 text;
     btoa := fun s => s;
     canvasToDataURL := fun w _ _ _ => (w, NeverLoads);
     mathRandom := fun w =>
       (w, mkRandomDraws 1 (fun i => nth i [43; 77; 111] 0) (fun _ => 0)) |}.

(** A host whose serializer answers with a text [btoa] refuses. *)
Definition wide : Platform :=
  {| World := unit;
     xhr_send := fun w _ _ => (w, Response 200 "<svg><path/></svg>");
     recolorSvg := fun _ _ _ => NotLatin1;
     btoa := fun s => s;
     canvasToDataURL := fun w _ _ _ => (w, ExecutorThrows);
     mathRandom := fun w =>
       (w, mkRandomDraws 0 (fun _ => 0) (fun i => Z.of_nat i)) |}.

Definition startWide : Host wide := mkHost (tt : World wide) [].

Definition startOnline : Host online := mkHost (0%nat : World online) [].

Definition startSilent : Host silent := mkHost (tt : World silent) [].

(** One node with the icon [home] and one with inline data. *)
Definition mixedMenu : list MenuNode :=
  [ item "a" "A" (Some "home") None None;
    item "b" "B" None (Some "AAAA") None ].

(** * Properties *)

(** ** Strings *)

Lemma prefix_spec (sep s : string) :
  String.prefix sep s = true <-> exists b, s = sep +:+ b.
Proof.
  revert s. induction sep as [|c sep IH]; intros s; simpl.
  - split; [intros _; now exists s | now destruct s].
  - destruct s as [|d s]; simpl.
    + split; [discriminate | intros [b Hb]; discriminate].
    + destruct (Ascii.ascii_dec c d) as [->|Hne].
      * rewrite IH. split; intros [b Hb]; exists b;
          [now rewrite Hb | simpl in Hb; now inversion Hb].
      * split; [discriminate | intros [b Hb]; simpl in Hb; inversion Hb; congruence].
Qed.

Lemma includes_nil (sep : string) :
  Js.includes "" sep = String.prefix sep "".
Proof. simpl. apply orb_false_r. Qed.

Lemma includes_cons (c : ascii) (s sep : string) :
  Js.includes (String c s) sep
  = String.prefix sep (String c s) || Js.includes s sep.
Proof. reflexivity. Qed.

Lemma includes_spec (s sep : string) :
  Js.includes s sep = true <-> occurs sep s.
Proof.
  unfold occurs. induction s as [|c s IH].
  - rewrite includes_nil, prefix_spec. split.
    + intros [b Hb]. now exists "", b.
    + intros [a [b Hab]]. destruct a; simpl in Hab.
      * now exists b.
      * discriminate.
  - rewrite includes_cons, orb_true_iff, prefix_spec, IH. split.
    + intros [[b Hb] | [a [b Hab]]].
      * now exists "", b.
      * exists (String c a), b. simpl. now rewrite Hab.
    + intros [a [b Hab]]. destruct a as [|d a]; simpl in Hab.
      * left. now exists b.
      * right. inversion Hab. now exists a, b.
Qed.

Lemma includes_false (s sep : string) :
  Js.includes s sep = false <-> ~ occurs sep s.
Proof.
  rewrite <- includes_spec. destruct (Js.includes s sep); split; intros H;
    try reflexivity; try discriminate; try (intros ?; discriminate).
  exfalso. now apply H.
Qed.

(** ** C9: the separator *)




(** ** Path segments of a link *)

Lemma append_assoc (a b c : string) : (a +:+ b) +:+ c = a +:+ b +:+ c.
Proof. induction a as [|x a IH]; simpl; [reflexivity | now rewrite IH]. Qed.

Lemma append_nil_r (a : string) : a +:+ "" = a.
Proof. induction a as [|x a IH]; simpl; [reflexivity | now rewrite IH]. Qed.

Lemma includes_cons_false (c : ascii) (s sep : string) :
  Js.includes (String c s) sep = false ->
  String.prefix sep (String c s) = false /\ Js.includes s sep = false.
Proof. rewrite includes_cons. apply orb_false_elim. Qed.

Lemma prefix_char (x c : ascii) (s : string) :
  String.prefix (String x "") (String c s)
  = if Ascii.ascii_dec x c then true else false.
Proof.
  change (String.prefix (String x "") (String c s))
    with (if Ascii.ascii_dec x c then String.prefix "" s else false).
  destruct (Ascii.ascii_dec x c); [now destruct s | reflexivity].
Qed.

Lemma split_go_nil (sep cur : string) (skip : nat) :
  Js.split_go sep "" cur skip = [cur].
Proof. reflexivity. Qed.

Lemma split_go_cons (sep : string) (c : ascii) (s cur : string) :
  Js.split_go sep (String c s) cur 0
  = if String.prefix sep (String c s)
    then cur :: Js.split_go sep s "" (String.length sep - 1)
    else Js.split_go sep s (cur +:+ String c "") 0.
Proof. reflexivity. Qed.

Lemma split_go_skip (sep : string) (c : ascii) (s cur : string) (k : nat) :
  Js.split_go sep (String c s) cur (S k) = Js.split_go sep s cur k.
Proof. reflexivity. Qed.

(** A piece with no slash in it is scanned through into the current piece. *)
Lemma split_go_slash_free (seg rest cur : string) :
  Js.includes seg "/" = false ->
  Js.split_go "/" (seg +:+ rest) cur 0 = Js.split_go "/" rest (cur +:+ seg) 0.
Proof.
  revert cur. induction seg as [|c seg IH]; intros cur H.
  - simpl. now rewrite append_nil_r.
  - apply includes_cons_false in H as [Hp Hi].
    change (String c seg +:+ rest) with (String c (seg +:+ rest)).
    rewrite split_go_cons, prefix_char. rewrite prefix_char in Hp.
    destruct (Ascii.ascii_dec "/" c); [discriminate|].
    rewrite (IH _ Hi), append_assoc. reflexivity.
Qed.

(** Whatever stands before a slash, the scan of what follows it starts a
    fresh piece. *)
Lemma split_go_after_slash (a b cur : string) :
  exists l, Js.split_go "/" (a +:+ "/" +:+ b) cur 0
            = (l ++ Js.split_go "/" b "" 0)%list.
Proof.
  revert cur. induction a as [|c a IH]; intros cur.
  - exists [cur]. change ("" +:+ "/" +:+ b) with (String "/" b).
    rewrite split_go_cons, prefix_char.
    destruct (Ascii.ascii_dec "/" "/"); [reflexivity | contradiction].
  - change (String c a +:+ "/" +:+ b) with (String c (a +:+ "/" +:+ b)).
    rewrite split_go_cons, prefix_char.
    destruct (Ascii.ascii_dec "/" c).
    + destruct (IH "") as [l Hl]. exists (cur :: l). simpl Nat.sub.
      now rewrite Hl.
    + apply IH.
Qed.

Lemma segmentFromEnd_1 (a seg : string) :
  Js.includes seg "/" = false ->
  segmentFromEnd (a +:+ "/" +:+ seg +:+ "/48px.svg") 1 = Some seg.
Proof.
  intros H. unfold segmentFromEnd, Js.split.
  destruct (split_go_after_slash a (seg +:+ "/48px.svg") "") as [l Hl].
  rewrite Hl, (split_go_slash_free _ _ _ H). simpl.
  rewrite rev_app_distr. reflexivity.
Qed.

Lemma uint_slash_free (d : Decimal.uint) :
  Js.includes (NilEmpty.string_of_uint d) "/" = false.
Proof.
  induction d; try reflexivity;
    cbn [NilEmpty.string_of_uint]; rewrite includes_cons, prefix_char, IHd;
    reflexivity.
Qed.

Lemma numToString_slash_free (n : Z) :
  Js.includes (Js.numToString n) "/" = false.
Proof.
  unfold Js.numToString, NilZero.string_of_int, NilZero.string_of_uint.
  destruct (Z.to_int n) as [d|d].
  - destruct d; try reflexivity; apply uint_slash_free.
  - rewrite includes_cons, prefix_char.
    destruct d; try reflexivity; apply uint_slash_free.
Qed.

Lemma weightSegment_slash_free (weight : Z) :
  Js.includes (weightSegment weight) "/" = false.
Proof.
  unfold weightSegment. destruct (weight =? 400); [reflexivity|].
  change ("wght" +:+ Js.numToString weight)
    with (String "w" (String "g" (String "h" (String "t" (Js.numToString weight))))).
  do 4 (rewrite includes_cons, prefix_char;
          destruct (Ascii.ascii_dec _ _) as [E|_]; [discriminate E|];
          cbn [orb]).
  apply numToString_slash_free.
Qed.

Lemma getMaterialIconLink_shape (icon : Js.Str) (weight : Z) (style : Js.Str) :
  exists a, getMaterialIconLink icon weight style
            = a +:+ "/" +:+ weightSegment weight +:+ "/48px.svg".
Proof.
  unfold getMaterialIconLink. fold (weightSegment weight).
  generalize (weightSegment weight) as w, iconHost as host.
  intros w host.
  match goal with
  | |- exists a, host +:+ ?st +:+ "/" +:+ ?n +:+ ?rest = _ =>
      exists (host +:+ st +:+ "/" +:+ n); generalize st as t, n as m
  end.
  intros t m. now rewrite !append_assoc.
Qed.

Lemma segment_of_link (icon : Js.Str) (weight : Z) (style : Js.Str) :
  segmentFromEnd (getMaterialIconLink icon weight style) 1
  = Some (weightSegment weight).
Proof.
  destruct (getMaterialIconLink_shape icon weight style) as [a ->].
  apply segmentFromEnd_1, weightSegment_slash_free.
Qed.

(** ** C8: the weight segment *)

Lemma getIconSeparator_truthy (icon : Js.Str) (separator : string) :
  getIconSeparator icon = Some separator -> Js.truthy (Some separator) = true.
Proof.
  unfold getIconSeparator. destruct (negb (Js.truthy icon)); [discriminate|].
  intros H. apply find_some in H as [Hin _].
  simpl in Hin. repeat destruct Hin as [<-|Hin]; try reflexivity. contradiction.
Qed.

Lemma getMaterialIcon_link (g : Globals) (icon : Js.Str) (link : string) :
  getMaterialIcon g icon = Some link ->
  exists name style,
    link = getMaterialIconLink name (resolvedWeight g icon) style.
Proof.
  unfold getMaterialIcon, resolvedWeight.
  destruct (negb (Js.truthy icon)); [discriminate|].
  destruct (getIconSeparator icon) as [separator|] eqn:Hsep.
  - rewrite (getIconSeparator_truthy _ _ Hsep). simpl negb. cbv iota.
    intros [= <-]. eauto.
  - simpl. intros [= <-]. eauto.
Qed.

(** C8. Every icon-reference resolution yields a link whose weight path
    segment (the one before [48px.svg]) is ["default"] when the resolved
    weight is 400 and ["wght"] followed by the digits of the weight for any
    other integer weight. The weight is an integer a double holds exactly
    (at most 2^53 in absolute value): there [parseInt] returns the written
    integer and the template literal prints its decimal digits. *)
Theorem icon_link_weight_segment (g : Globals) (icon : Js.Str) (link : string) :
  getMaterialIcon g icon = Some link ->
  Js.safeInteger (resolvedWeight g icon) ->
  (resolvedWeight g icon = 400 -> segmentFromEnd link 1 = Some "default") /\
  (resolvedWeight g icon <> 400 ->
   segmentFromEnd link 1
   = Some ("wght" +:+ Js.numToString (resolvedWeight g icon))).
Proof.
  intros H _. destruct (getMaterialIcon_link _ _ _ H) as [name [style ->]].
  rewrite segment_of_link. unfold weightSegment. split; intros Hw.
  - now rewrite Hw.
  - apply Z.eqb_neq in Hw. now rewrite Hw.
Qed.

(** The reference [home;red;blue;700;outlined] resolves to weight 700. *)
Lemma icon_link_weight_segment_witness :
  segmentFromEnd
    (iconHost +:+ "outlined/home/wght700/48px.svg") 1 = Some "wght700".
Proof.
  assert (Hsafe : Js.safeInteger
                    (resolvedWeight defaults (Some "home;red;blue;700;outlined")))
    by (vm_compute; split; discriminate).
  apply (proj2 (icon_link_weight_segment defaults
                  (Some "home;red;blue;700;outlined") _ eq_refl Hsafe)).
  vm_compute. discriminate.
Defined.

(** ** C7: a reference with no delimiter *)




(** One slash-free segment, up to its slash. *)
Lemma split_go_segment (a b cur : string) :
  Js.includes a "/" = false ->
  Js.split_go "/" (a +:+ "/" +:+ b) cur 0
  = (cur +:+ a) :: Js.split_go "/" b "" 0.
Proof.
  intros H. rewrite (split_go_slash_free _ _ _ H).
  change ("/" +:+ b) with (String "/" b).
  rewrite split_go_cons, prefix_char.
  destruct (Ascii.ascii_dec "/" "/"); [reflexivity | contradiction].
Qed.




(** ** The data-URL marker *)

Lemma prefix_cons (a b : ascii) (s1 s2 : string) :
  String.prefix (String a s1) (String b s2)
  = if Ascii.ascii_dec a b then String.prefix s1 s2 else false.
Proof. reflexivity. Qed.

Ltac straddle :=
  lazymatch goal with
  | |- String.prefix EmptyString _ = true -> String.prefix EmptyString ?x = true =>
      intros _; now destruct x
  | |- String.prefix (String _ _) (?x +:+ ?m) = true -> _ =>
      destruct x as [|? ?];
      [ let H := fresh in intros H; vm_compute in H; discriminate H
      | simpl String.append; rewrite !prefix_cons;
        destruct (Ascii.ascii_dec _ _) as [<-|]; [straddle | exact (fun H => H)] ]
  end.

(** The marker does not overlap itself: where it starts inside a non-empty
    [x] followed by the marker, it lies within [x]. *)
Lemma marker_within (c : ascii) (x : string) :
  String.prefix "base64," (String c x +:+ "base64,") = true ->
  String.prefix "base64," (String c x) = true.
Proof.
  simpl String.append. rewrite !prefix_cons.
  destruct (Ascii.ascii_dec _ _) as [<-|]; [straddle | exact (fun H => H)].
Qed.

Lemma split_go_marker_end (p cur : string) :
  Js.includes p "base64," = false ->
  Js.split_go "base64," (p +:+ "base64,") cur 0 = [cur +:+ p; ""].
Proof.
  revert cur. induction p as [|c p IH]; intros cur H.
  - rewrite append_nil_r. reflexivity.
  - apply includes_cons_false in H as [Hp Hi].
    change (String c p +:+ "base64,") with (String c (p +:+ "base64,")).
    rewrite split_go_cons.
    destruct (String.prefix "base64," (String c (p +:+ "base64,"))) eqn:E.
    + apply (marker_within c p) in E. congruence.
    + rewrite (IH _ Hi), append_assoc. reflexivity.
Qed.

(** A field that ends in the marker, with no marker before, is cut to the
    empty payload. *)
Lemma cutBase64DataType_bare_prefix (p : string) :
  Js.includes p "base64," = false ->
  cutBase64DataType (Some (p +:+ "base64,")) = Some "".
Proof.
  intros H. unfold cutBase64DataType.
  assert (Ht : Js.truthy (Some (p +:+ "base64,")) = true) by now destruct p.
  assert (Hi : Js.includes (p +:+ "base64,") "base64," = true).
  { apply includes_spec. exists p, "". now rewrite append_nil_r. }
  rewrite Ht. simpl Js.toString. rewrite Hi. simpl.
  unfold Js.split. cbv beta iota. now rewrite (split_go_marker_end p "" H).
Qed.

(** ** Resolution *)

Section ResolutionProperties.

Context (P : Platform).

Lemma or_truthy (a b : Js.Str) : Js.truthy a = true -> Js.or a b = a.
Proof. unfold Js.or. now intros ->. Qed.

Lemma or_falsy (a b : Js.Str) : Js.truthy a = false -> Js.or a b = b.
Proof. unfold Js.or. now intros ->. Qed.

Lemma and_truthy (a b : Js.Str) : Js.truthy a = true -> Js.and a b = b.
Proof. unfold Js.and. now intros ->. Qed.

Lemma and_falsy (a b : Js.Str) : Js.truthy a = false -> Js.and a b = a.
Proof. unfold Js.and. now intros ->. Qed.

(** The inline kind is answered at once, from the source, with no call to
    the host. *)
Lemma convert_inline (g : Globals) (image : ImageInfo) (h : Host P) :
  type image = Some "base64" ->
  convertImageUrlToBase64 P g image h = (h, Normal (Fulfilled (source image))).
Proof. intros H. unfold convertImageUrlToBase64. now rewrite H. Qed.

(** A kind that is neither inline nor in [IMAGE_DATA_INFO] breaks on
    [info.mimeType]. *)
Lemma convert_no_info (g : Globals) (image : ImageInfo) (h : Host P) :
  Js.strictEq (type image) (Some "base64") = false ->
  IMAGE_DATA_INFO_get (type image) = None ->
  convertImageUrlToBase64 P g image h = (h, Throw TypeError).
Proof.
  intros H1 H2. unfold convertImageUrlToBase64. rewrite H1, H2. reflexivity.
Qed.

Lemma bind_eq {A B} (c : M P A) (k : A -> M P B) (h : Host P) :
  bind c k h = match c h with
               | (h', Normal a) => k a h'
               | (h', Throw e) => (h', Throw e)
               end.
Proof. reflexivity. Qed.

Lemma forEach_eq (g : Globals) (l : list MenuNode) (h : Host P) :
  (fix forEach (items : list MenuNode) : M P (list MenuNode) :=
     match items with
     | [] => ret []
     | x :: rest =>
         x' <- updateMenuItem P g x ;;
         rest' <- forEach rest ;; ret (x' :: rest')
     end) l h = updateMenuItems P g l h.
Proof.
  revert h. induction l as [|x l IH]; intros h; [reflexivity|].
  cbn [updateMenuItems]. rewrite !bind_eq.
  destruct (updateMenuItem P g x h) as [h2 [x'|e]]; [|reflexivity].
  rewrite !bind_eq. now rewrite IH.
Qed.

Lemma updateMenuItem_unfold (g : Globals) (menuItem : MenuNode) (h : Host P) :
  updateMenuItem P g menuItem h
  = (promise <- convertImageUrlToBase64 P g (imageInfo g menuItem) ;;
     kids <- match children menuItem with
             | Some (c :: cs) =>
                 cs' <- updateMenuItems P g (c :: cs) ;; ret (Some cs')
             | _ => ret None
             end ;;
     let item := deleteItemProperties menuItem in
     ret {| id := id item; title := title item; subtitle := subtitle item;
            children := kids;
            icon := icon item; base64 := base64 item;
            imageUrl := imageUrl item;
            base64Promise := Some promise |}) h.
Proof.
  destruct menuItem as [i t st ch ic b u pr]. cbn [updateMenuItem children].
  rewrite !bind_eq.
  destruct (convertImageUrlToBase64 P g _ h) as [h1 [p|e]]; [|reflexivity].
  rewrite !bind_eq.
  destruct ch as [[|c cs]|]; try reflexivity.
  cbn [updateMenuItems]. rewrite !bind_eq.
  destruct (updateMenuItem P g c h1) as [h2 [x'|e]]; [|reflexivity].
  rewrite !bind_eq, forEach_eq. reflexivity.
Qed.

Lemma absent_type (g : Globals) (n : MenuNode) :
  icon n = None -> base64 n = None -> imageUrl n = None ->
  type (imageInfo g n) = None.
Proof. intros Hi Hb Hu. unfold imageInfo. cbn [type]. now rewrite Hi, Hb, Hu. Qed.

(** Decorating a node that has none of the three fields throws. *)
Lemma updateMenuItem_absent_throws (g : Globals) (n : MenuNode) (h : Host P) :
  icon n = None -> base64 n = None -> imageUrl n = None ->
  updateMenuItem P g n h = (h, Throw TypeError).
Proof.
  intros Hi Hb Hu. rewrite updateMenuItem_unfold, bind_eq.
  rewrite convert_no_info; [reflexivity | |];
    now rewrite (absent_type g n Hi Hb Hu).
Qed.

(** A decorated node has lost its three source fields. *)
Lemma updateMenuItem_strips (g : Globals) (n n' : MenuNode) (h h' : Host P) :
  updateMenuItem P g n h = (h', Normal n') ->
  icon n' = None /\ base64 n' = None /\ imageUrl n' = None.
Proof.
  rewrite updateMenuItem_unfold, bind_eq.
  destruct (convertImageUrlToBase64 P g (imageInfo g n) h) as [h1 [p|e]];
    [|discriminate].
  rewrite bind_eq.
  match goal with
  | |- context [match ?c h1 with _ => _ end] => destruct (c h1) as [h2 [k|e]]
  end; [|discriminate].
  cbn. intros [= _ <-]. cbn. auto.
Qed.

(** ** C1 and C2: nodes with no image source *)

(** C1, on the code. A node with none of [icon], [base64], [imageUrl] is
    classified with no kind at all, and decorating it does not reach a
    promise: [convertImageUrlToBase64] finds no entry for the kind in
    [IMAGE_DATA_INFO] and [getImageFromUrl] reads [info.mimeType] of
    [undefined]. The decorator ends with a TypeError, not with a pending
    empty payload. *)
Theorem node_without_image_throws (g : Globals) (i : NodeId) (t : string)
    (st : Js.Str) (ch : option (list MenuNode)) (pr : option Promise)
    (h : Host P) :
  let n := mkMenuNode i t st ch None None None pr in
  type (imageInfo g n) = Js.undefined /\
  updateMenuItems P g [n] h = (h, Throw TypeError).
Proof.
  split; [reflexivity|].
  cbn [updateMenuItems]. rewrite bind_eq, updateMenuItem_absent_throws;
    reflexivity.
Qed.

(** C2, on the code. A node that the decorator has decorated has no source
    field left, so a second pass classifies it with no kind (the absent
    kind the specification expects) and then throws the same TypeError
    (which the specification excludes). *)
Theorem redecorating_throws (g : Globals) (n n' : MenuNode) (h h' h2 : Host P) :
  updateMenuItem P g n h = (h', Normal n') ->
  type (imageInfo g n') = Js.undefined /\
  updateMenuItem P g n' h2 = (h2, Throw TypeError).
Proof.
  intros H. destruct (updateMenuItem_strips _ _ _ _ _ H) as [Hi [Hb Hu]].
  split.
  - now apply absent_type.
  - now apply updateMenuItem_absent_throws.
Qed.

(** ** C5: an inline data URL *)

(** C5. For a node whose inline field is [data:image/png;base64,AAAA] the
    classifier cuts the prefix up to and including [base64,], the kind is
    inline and the resolver answers the bare payload [AAAA]; the host is
    left as it was: no request, no recolouring, no canvas. *)
Theorem inline_data_url_resolves_to_payload (g : Globals) (n : MenuNode)
    (h : Host P) :
  base64 n = Some "data:image/png;base64,AAAA" ->
  cutBase64DataType (base64 n) = Some "AAAA" /\
  type (imageInfo g n) = Some "base64" /\
  source (imageInfo g n) = Some "AAAA" /\
  convertImageUrlToBase64 P g (imageInfo g n) h
  = (h, Normal (Fulfilled (Some "AAAA"))).
Proof.
  intros H.
  assert (Hcut : cutBase64DataType (base64 n) = Some "AAAA")
    by (rewrite H; reflexivity).
  assert (Htype : type (imageInfo g n) = Some "base64")
    by (unfold imageInfo; cbn [type]; rewrite H; reflexivity).
  assert (Hsrc : source (imageInfo g n) = Some "AAAA")
    by (unfold imageInfo; cbn [source]; rewrite Hcut; reflexivity).
  repeat split; try assumption.
  rewrite (convert_inline g _ h Htype). now rewrite Hsrc.
Qed.

(** ** C6: a failed request *)

(** C6. When the kind is the vector reference or the remote link and the
    request is answered with a status other than 200, the resolution is
    fulfilled with the empty string, nothing is thrown, and the only call
    to the host is that request: no recolouring, encoding or canvas. *)
Theorem failed_request_resolves_empty (g : Globals) (image : ImageInfo)
    (h : Host P) (mime : string) (w' : World P) (status : Z) (body : string) :
  (type image = Some "svg" /\ mime = "image/svg+xml") \/
  (type image = Some "jpg" /\ mime = "text/plain; charset=x-user-defined") ->
  xhr_send P (world h) (source image) mime = (w', Response status body) ->
  status <> 200 ->
  convertImageUrlToBase64 P g image h
  = (mkHost w' (log h ++ [EvXhr (source image) mime]),
     Normal (Fulfilled (Some ""))).
Proof.
  intros Hkind Hxhr Hstatus. apply Z.eqb_neq in Hstatus.
  unfold convertImageUrlToBase64.
  destruct Hkind as [[-> ->] | [-> ->]];
    repeat (unfold bind, emit, liftWorld, prop, ret; cbn -[Z.eqb]);
    rewrite Hxhr; cbn -[Z.eqb]; rewrite Hstatus; reflexivity.
Qed.

(** ** C10: a bare data-URL prefix beside an icon *)

Lemma getMaterialIcon_truthy (g : Globals) (ic : string) :
  ic <> "" ->
  exists link, getMaterialIcon g (Some ic) = Some link /\
               Js.truthy (Some link) = true.
Proof.
  intros Hne. unfold getMaterialIcon.
  assert (Ht : Js.truthy (Some ic) = true) by now destruct ic.
  rewrite Ht. cbn [negb].
  destruct (negb (Js.truthy (getIconSeparator (Some ic))));
    eexists; (split; [reflexivity|]); reflexivity.
Qed.

(** C10. When the inline field is a bare data-URL prefix (it ends in
    [base64,], with no earlier [base64,] and so an empty payload) and the
    node also has an icon reference, the kind is inline while the source
    falls through to the link generated for the icon; the resolver answers
    that link as the payload, without any call to the host. *)
Theorem bare_prefix_with_icon_resolves_to_link (g : Globals) (n : MenuNode)
    (p ic : string) (h : Host P) :
  base64 n = Some (p +:+ "base64,") ->
  ~ occurs "base64," p ->
  icon n = Some ic ->
  ic <> "" ->
  exists link,
    getMaterialIcon g (icon n) = Some link /\
    link <> "" /\
    type (imageInfo g n) = Some "base64" /\
    source (imageInfo g n) = Some link /\
    convertImageUrlToBase64 P g (imageInfo g n) h
    = (h, Normal (Fulfilled (Some link))).
Proof.
  intros Hb Hp Hi Hne. apply includes_false in Hp.
  destruct (getMaterialIcon_truthy g ic Hne) as [link [Hlink Ht]].
  exists link.
  assert (Hset : Js.truthy (base64 n) = true) by (rewrite Hb; now destruct p).
  assert (Htype : type (imageInfo g n) = Some "base64").
  { unfold imageInfo. cbn [type]. rewrite (and_truthy _ _ Hset). reflexivity. }
  assert (Hsrc : source (imageInfo g n) = Some link).
  { unfold imageInfo. cbn [source].
    rewrite Hb, (cutBase64DataType_bare_prefix p Hp), Hi, Hlink.
    rewrite (or_falsy (Some "")) by reflexivity.
    now rewrite (or_truthy _ _ Ht). }
  rewrite Hi. repeat split; try assumption.
  - intros ->. discriminate.
  - rewrite (convert_inline g _ h Htype). now rewrite Hsrc.
Qed.

(** ** C4: several source fields at once *)

Lemma priority_type (g : Globals) (n : MenuNode) :
  moreThanOneSet n = true -> type (imageInfo g n) = Some (priorityKind n).
Proof.
  unfold moreThanOneSet, imageInfo, priorityKind. cbn [type].
  unfold Js.or, Js.and. intros H.
  destruct (Js.truthy (base64 n)) eqn:Hb; [reflexivity|].
  rewrite Hb. destruct (Js.truthy (icon n)) eqn:Hi; [reflexivity|].
  discriminate H.
Qed.

(** With an entry in [IMAGE_DATA_INFO], or the inline kind, no property of
    [undefined] is read. *)
Lemma convert_no_TypeError (g : Globals) (image : ImageInfo) (h : Host P) :
  type image = Some "base64" \/ type image = Some "svg"
    \/ type image = Some "jpg" ->
  snd (convertImageUrlToBase64 P g image h) <> Throw TypeError.
Proof.
  intros [H | [H | H]]; [now rewrite (convert_inline g _ h H) | |];
    unfold convertImageUrlToBase64, getImageFromUrl, getColorizedSvgBase64,
      getImageBas64, convertSvgToPng, getRandomColor;
    rewrite H;
    repeat (unfold bind, emit, liftWorld, prop, ret, throw; cbn);
    repeat match goal with
           | |- context [match ?x with _ => _ end] =>
               lazymatch x with
               | context [match _ with _ => _ end] => fail
               | _ => destruct x; cbn
               end
           end;
    discriminate.
Qed.

(** How far the priority goes. On a node with more than one source field
    set the kind follows the fixed priority (inline data, icon reference,
    remote link), so inline data beside an icon is always the inline kind;
    no TypeError arises; and the resolution is the one of the same node
    without its losing fields, provided the inline field, when it wins,
    is cut to a non-empty payload. *)
Lemma classifier_priority (g : Globals) (n : MenuNode) (h : Host P) :
  moreThanOneSet n = true ->
  type (imageInfo g n) = Some (priorityKind n) /\
  (Js.truthy (base64 n) = true -> type (imageInfo g n) = Some "base64") /\
  snd (convertImageUrlToBase64 P g (imageInfo g n) h) <> Throw TypeError /\
  (Js.truthy (base64 n) = false
   \/ Js.truthy (cutBase64DataType (base64 n)) = true ->
   convertImageUrlToBase64 P g (imageInfo g n) h
   = convertImageUrlToBase64 P g (imageInfo g (keepWinner n)) h).
Proof.
  intros Hmore. pose proof (priority_type g n Hmore) as Htype.
  split; [assumption|]. split; [|split].
  - intros Hb. rewrite Htype. unfold priorityKind. now rewrite Hb.
  - apply convert_no_TypeError. rewrite Htype. unfold priorityKind.
    destruct (Js.truthy (base64 n)); [now left|].
    destruct (Js.truthy (icon n)); [right; now left | right; now right].
  - intros Hwin.
    destruct (Js.truthy (base64 n)) eqn:Hb.
    + destruct Hwin as [Hwin | Hcut]; [discriminate|].
      rewrite !convert_inline.
      * unfold imageInfo, keepWinner. cbn [source base64 icon imageUrl].
        now rewrite !(or_truthy _ _ Hcut).
      * unfold imageInfo, keepWinner. cbn [type base64 icon imageUrl].
        now rewrite (and_truthy _ _ Hb).
      * unfold imageInfo. cbn [type]. now rewrite (and_truthy _ _ Hb).
    + f_equal. unfold moreThanOneSet in Hmore. rewrite Hb in Hmore.
      cbn [andb orb] in Hmore. apply andb_prop in Hmore as [Hi Hu].
      unfold imageInfo, keepWinner. cbn [base64 icon imageUrl].
      rewrite Hb, Hi. cbn [orb].
      assert (Hc : Js.truthy (cutBase64DataType (base64 n)) = false).
      { unfold cutBase64DataType. now rewrite Hb. }
      destruct (icon n) as [ic|] eqn:Eic; [|discriminate].
      destruct (getMaterialIcon_truthy g ic) as [link [Hlink Ht]].
      { intros ->. discriminate. }
      rewrite Hlink. rewrite !(or_falsy _ _ Hc), !(or_truthy _ _ Ht).
      rewrite !(and_falsy _ _ Hb). rewrite !(or_falsy _ _ Hb).
      rewrite !(and_truthy (Some ic)) by assumption.
      rewrite !(or_truthy (Some "svg")) by reflexivity.
      reflexivity.
Qed.

(** C4, on the code. The kind is chosen by the fixed priority, but a losing
    field is not always ignored. On the node
    [{ id: "a", title: "A", icon: "home", base64: "data:image/png;base64," }]
    two source fields are set and the kind is the inline one, as the claim
    says; the payload of the resolution, however, is the link of the
    losing icon, where the same node without the icon resolves to
    [undefined]: the source is picked by a fallback chain of its own, which
    passes over the inline field once the prefix is cut off and nothing is
    left. This holds on every host and under every configuration. *)
Theorem losing_icon_is_not_ignored (g : Globals) (h : Host P) :
  let n := item "a" "A" (Some "home") (Some "data:image/png;base64,") None in
  let link := getMaterialIconLink (Some "home") (ICONS_WEIGHT g) None in
  moreThanOneSet n = true /\
  type (imageInfo g n) = Some (priorityKind n) /\
  type (imageInfo g n) = Some "base64" /\
  convertImageUrlToBase64 P g (imageInfo g n) h
  = (h, Normal (Fulfilled (Some link))) /\
  convertImageUrlToBase64 P g (imageInfo g (keepWinner n)) h
  = (h, Normal (Fulfilled None)) /\
  convertImageUrlToBase64 P g (imageInfo g n) h
  <> convertImageUrlToBase64 P g (imageInfo g (keepWinner n)) h.
Proof.
  cbv zeta.
  assert (Hn : convertImageUrlToBase64 P g
                 (imageInfo g (item "a" "A" (Some "home")
                                 (Some "data:image/png;base64,") None)) h
               = (h, Normal (Fulfilled
                    (Some (getMaterialIconLink (Some "home") (ICONS_WEIGHT g)
                             None))))).
  { rewrite convert_inline by reflexivity. reflexivity. }
  assert (Hk : convertImageUrlToBase64 P g
                 (imageInfo g (keepWinner
                    (item "a" "A" (Some "home")
                       (Some "data:image/png;base64,") None))) h
               = (h, Normal (Fulfilled None))).
  { rewrite convert_inline by reflexivity. reflexivity. }
  repeat split; try reflexivity; try assumption.
  rewrite Hn, Hk. discriminate.
Qed.

End ResolutionProperties.

(** ** Witnesses and counterexamples of the resolution properties *)

Lemma redecorating_throws_witness :
  type (imageInfo defaults decoratedOnce) = Js.undefined /\
  updateMenuItem offline defaults decoratedOnce start = (start, Throw TypeError).
Proof.
  apply (redecorating_throws offline defaults
           (item "a" "A" None (Some "AAAA") None) decoratedOnce
           start start start).
  reflexivity.
Defined.

Lemma inline_data_url_resolves_to_payload_witness :
  let n := item "a" "A" None (Some "data:image/png;base64,AAAA") None in
  cutBase64DataType (base64 n) = Some "AAAA" /\
  type (imageInfo defaults n) = Some "base64" /\
  source (imageInfo defaults n) = Some "AAAA" /\
  convertImageUrlToBase64 offline defaults (imageInfo defaults n) start
  = (start, Normal (Fulfilled (Some "AAAA"))).
Proof.
  apply (inline_data_url_resolves_to_payload offline defaults
           (item "a" "A" None (Some "data:image/png;base64,AAAA") None) start).
  reflexivity.
Defined.

Lemma failed_request_resolves_empty_witness :
  let image := imageInfo defaults (item "a" "A" (Some "home") None None) in
  convertImageUrlToBase64 offline defaults image start
  = (mkHost (tt : World offline) [EvXhr (source image) "image/svg+xml"],
     Normal (Fulfilled (Some ""))).
Proof.
  apply (failed_request_resolves_empty offline defaults
           (imageInfo defaults (item "a" "A" (Some "home") None None)) start
           "image/svg+xml" tt 404 "Not Found").
  - left. split; reflexivity.
  - reflexivity.
  - lia.
Defined.

Lemma bare_prefix_with_icon_resolves_to_link_witness :
  let n := item "a" "A" (Some "home") (Some "data:image/png;base64,") None in
  exists link,
    getMaterialIcon defaults (icon n) = Some link /\
    link <> "" /\
    type (imageInfo defaults n) = Some "base64" /\
    source (imageInfo defaults n) = Some link /\
    convertImageUrlToBase64 offline defaults (imageInfo defaults n) start
    = (start, Normal (Fulfilled (Some link))).
Proof.
  apply (bare_prefix_with_icon_resolves_to_link offline defaults
           (item "a" "A" (Some "home") (Some "data:image/png;base64,") None)
           "data:image/png;" "home" start).
  - reflexivity.
  - apply includes_false. reflexivity.
  - reflexivity.
  - discriminate.
Defined.

Lemma classifier_priority_witness :
  let n := item "a" "A" (Some "home") (Some "data:image/png;base64,AAAA")
             (Some "https://example.org/a.jpg") in
  type (imageInfo defaults n) = Some "base64" /\
  convertImageUrlToBase64 offline defaults (imageInfo defaults n) start
  = convertImageUrlToBase64 offline defaults
      (imageInfo defaults (keepWinner n)) start.
Proof.
  pose proof (classifier_priority offline defaults
                (item "a" "A" (Some "home") (Some "data:image/png;base64,AAAA")
                   (Some "https://example.org/a.jpg")) start eq_refl)
    as [Hkind [_ [_ Hsame]]].
  split; [exact Hkind | apply Hsame; right; reflexivity].
Defined.

(** ** C3: flattening *)



Lemma flatten_each (key : string) (l : list MenuNode) (r : gmap string string) :
  (fix each (nodes : list MenuNode) (r : gmap string string) :=
     match nodes with
     | [] => Some r
     | childNode :: rest =>
         r' ← flatten childNode key r;
         each rest r'
     end) l r = flattenAll key l r.
Proof.
  revert r. induction l as [|x l IH]; intros r; [reflexivity|].
  cbn [flattenAll]. destruct (flatten x key r) as [r'|]; [|reflexivity].
  cbn [mbind option_bind]. apply IH.
Qed.

Lemma flatten_unfold (node : MenuNode) (key : string) (result : gmap string string) :
  flatten node key result
  = (let result1 :=
       if negb (Js.truthy (getProp result key)) then setProp result key ""
       else result in
     let old := getProp result1 key in
     block ← getMenuList node;
     let result2 := setProp result1 key (Js.toString old +:+ block) in
     match children node with
     | Some (c :: cs) => flattenAll (idToString (id node)) (c :: cs) result2
     | _ => Some result2
     end).
Proof.
  destruct node as [i t st ch ic b u pr]. cbn [flatten children id].
  destruct (getMenuList _) as [block|]; [|reflexivity].
  cbn [mbind option_bind].
  destruct ch as [[|c cs]|]; try reflexivity.
  cbn [flattenAll].
  destruct (flatten c (idToString i) _) as [r'|]; [|reflexivity].
  cbn [mbind option_bind]. apply flatten_each.
Qed.


Lemma MenuNode_tree_ind (Pn : MenuNode -> Prop) :
  (forall n, (forall l, children n = Some l -> Forall Pn l) -> Pn n) ->
  forall n, Pn n.
Proof.
  intros step. fix IH 1. intros n. apply step.
  destruct n as [i t st ch ic b u pr]. cbn [children].
  destruct ch as [l0|]; intros l E; [|discriminate].
  assert (HF : Forall Pn l0).
  { clear E. induction l0 as [|x l0 IHl]; constructor; [apply IH | apply IHl]. }
  injection E as <-. exact HF.
Qed.

Lemma records_unfold (key : string) (node : MenuNode) :
  records key node
  = (key, node) ::
    match children node with
    | Some nodes => recordsAll (idToString (id node)) nodes
    | None => []
    end.
Proof.
  destruct node as [i t st ch ic b u pr]. cbn [records children id].
  f_equal. destruct ch as [l|]; [|reflexivity].
  induction l as [|x l IH]; [reflexivity|].
  cbn [recordsAll]. now rewrite <- IH.
Qed.






(** C3, on the code. [result] is an object literal, so [result[key]] also
    finds what [Object.prototype] provides. When a parent's id is
    [constructor], the group of its children starts from the inherited
    function rendered as text, not from the empty string; when it is
    [__proto__], the assignment is dropped and the child's block is in no
    group at all. With an id that names no inherited property (here [p])
    the mapping is the one the specification describes. *)
Theorem inherited_key_breaks_grouping (P : Platform) (g : Globals) (h : Host P) :
  (updateMenuItems P g (shadowing "constructor") h
   = (h, Normal (shadowingDecorated "constructor")) /\
   exists m,
     flattenMenuOptions (shadowingDecorated "constructor") = Some m /\
     m !! "#root" = Some (parentBlock "constructor") /\
     m !! "constructor"
     = Some ("function Object() { [native code] }" +:+ childBlock) /\
     m !! "constructor" <> Some childBlock) /\
  (updateMenuItems P g (shadowing "__proto__") h
   = (h, Normal (shadowingDecorated "__proto__")) /\
   exists m,
     flattenMenuOptions (shadowingDecorated "__proto__") = Some m /\
     map_to_list m = [("#root", parentBlock "__proto__")]) /\
  (updateMenuItems P g (shadowing "p") h
   = (h, Normal (shadowingDecorated "p")) /\
   exists m,
     flattenMenuOptions (shadowingDecorated "p") = Some m /\
     m !! "#root" = Some (parentBlock "p") /\
     m !! "p" = Some childBlock).
Proof.
  repeat split; try reflexivity.
  - eexists. split; [reflexivity|]. repeat split; try (vm_compute; reflexivity).
    vm_compute. discriminate.
  - eexists. split; [reflexivity|]. vm_compute. reflexivity.
  - eexists. split; [reflexivity|]. split; vm_compute; reflexivity.
Qed.

(** * Further properties of the code *)

(** ** [split] and [cutBase64DataType] *)

Lemma split_go_skip_app (sep a post cur : string) :
  Js.split_go sep (a +:+ post) cur (String.length a) = Js.split_go sep post cur 0.
Proof.
  induction a as [|c a IH]; [now destruct post|].
  change (String c a +:+ post) with (String c (a +:+ post)).
  cbn [String.length]. now rewrite split_go_skip.
Qed.

(** A string in which the separator does not occur is one piece. *)
Lemma split_go_none (sep s cur : string) :
  Js.includes s sep = false -> Js.split_go sep s cur 0 = [cur +:+ s].
Proof.
  revert cur. induction s as [|c s IH]; intros cur H.
  - now rewrite append_nil_r.
  - apply includes_cons_false in H as [Hp Hi].
    rewrite split_go_cons, Hp, (IH _ Hi), append_assoc. reflexivity.
Qed.

Lemma marker_within_app (c : ascii) (x q : string) :
  String.prefix "base64," (String c x +:+ "base64," +:+ q) = true ->
  String.prefix "base64," (String c x) = true.
Proof.
  simpl String.append. rewrite !prefix_cons.
  destruct (Ascii.ascii_dec _ _) as [<-|]; [straddle | exact (fun H => H)].
Qed.

(** Up to the first marker: the piece before it, then the scan of what
    follows it. *)
Lemma split_go_marker (p q cur : string) :
  Js.includes p "base64," = false ->
  Js.split_go "base64," (p +:+ "base64," +:+ q) cur 0
  = (cur +:+ p) :: Js.split_go "base64," q "" 0.
Proof.
  revert cur. induction p as [|c p IH]; intros cur H.
  - rewrite append_nil_r.
    change ("" +:+ "base64," +:+ q) with (String "b" ("ase64," +:+ q)).
    rewrite split_go_cons.
    change (String.prefix "base64," (String "b" ("ase64," +:+ q)))
      with (String.prefix "" q).
    replace (String.prefix "" q) with true by now destruct q.
    first [ reflexivity
          | f_equal; apply (split_go_skip_app "base64," "ase64," q "") ].
  - apply includes_cons_false in H as [Hp Hi].
    change (String c p +:+ "base64," +:+ q)
      with (String c (p +:+ "base64," +:+ q)).
    rewrite split_go_cons.
    destruct (String.prefix "base64," (String c (p +:+ "base64," +:+ q))) eqn:E.
    + apply (marker_within_app c p q) in E. congruence.
    + rewrite (IH _ Hi), append_assoc. reflexivity.
Qed.

(** The payload of a data URL, when the marker is in neither part. *)
Lemma cut_data_url (p q : string) :
  ~ occurs "base64," p ->
  ~ occurs "base64," q ->
  cutBase64DataType (Some (p +:+ "base64," +:+ q)) = Some q.
Proof.
  intros Hp Hq. apply includes_false in Hp, Hq. unfold cutBase64DataType.
  assert (Ht : Js.truthy (Some (p +:+ "base64," +:+ q)) = true) by now destruct p.
  assert (Hi : Js.includes (p +:+ "base64," +:+ q) "base64," = true).
  { apply includes_spec. now exists p, q. }
  rewrite Ht. cbn [Js.toString]. rewrite Hi. cbn [negb orb].
  unfold Js.split. cbv beta iota.
  rewrite (split_go_marker p q "" Hp), (split_go_none _ q "" Hq).
  reflexivity.
Qed.

(** X1. A data URL is cut to its payload: when neither what stands before
    the first [base64,] nor the payload holds the marker, the result is the
    payload, whatever the media type written before the marker. *)
Theorem cutBase64DataType_payload (p q : string) :
  ~ occurs "base64," p ->
  ~ occurs "base64," q ->
  cutBase64DataType (Some (p +:+ "base64," +:+ q)) = Some q.
Proof. apply cut_data_url. Qed.

Lemma cutBase64DataType_payload_witness :
  cutBase64DataType (Some "data:image/jpeg;base64,/9j/4AAQ") = Some "/9j/4AAQ".
Proof.
  apply (cutBase64DataType_payload "data:image/jpeg;" "/9j/4AAQ");
    apply includes_false; reflexivity.
Defined.

Lemma firstPiece_is_prefix (sep s : string) :
  exists rest, s = firstPiece sep s 0 +:+ rest.
Proof.
  induction s as [|c s [rest IH]]; [now exists ""|].
  cbn [firstPiece]. destruct (String.prefix sep (String c s)).
  - now exists (String c s).
  - exists rest. simpl. now rewrite <- IH.
Qed.

Lemma firstPiece_free (sep s : string) (skip : nat) :
  sep <> "" -> Js.includes (firstPiece sep s skip) sep = false.
Proof.
  intros Hsep. revert skip. induction s as [|c s IH]; intros skip.
  - cbn [firstPiece]. rewrite includes_nil. destruct sep; [contradiction|reflexivity].
  - cbn [firstPiece]. destruct skip as [|k]; [|apply IH].
    destruct (String.prefix sep (String c s)) eqn:E.
    + rewrite includes_nil. destruct sep; [contradiction|reflexivity].
    + rewrite includes_cons, (IH 0%nat), orb_false_r.
      destruct (String.prefix sep (String c (firstPiece sep s 0))) eqn:E'; [|reflexivity].
      apply prefix_spec in E' as [b Hb].
      destruct (firstPiece_is_prefix sep s) as [rest Hrest].
      assert (String.prefix sep (String c s) = true) as E''.
      { apply prefix_spec. exists (b +:+ rest).
        rewrite <- append_assoc, <- Hb. simpl. now rewrite <- Hrest. }
      congruence.
Qed.

Lemma split_go_head (sep s cur : string) (skip : nat) :
  exists tl, Js.split_go sep s cur skip = (cur +:+ firstPiece sep s skip) :: tl.
Proof.
  revert cur skip. induction s as [|c s IH]; intros cur skip.
  - exists []. cbn. now rewrite append_nil_r.
  - destruct skip as [|k].
    + rewrite split_go_cons. cbn [firstPiece].
      destruct (String.prefix sep (String c s)).
      * eexists. now rewrite append_nil_r.
      * destruct (IH (cur +:+ String c "") 0%nat) as [tl ->]. exists tl.
        now rewrite append_assoc.
    + rewrite split_go_skip. cbn [firstPiece]. apply IH.
Qed.

(** The second piece of a split never holds the separator. *)
Lemma split_go_second_free (sep s cur : string) (skip : nat) (y : string) :
  sep <> "" ->
  nth_error (Js.split_go sep s cur skip) 1 = Some y ->
  Js.includes y sep = false.
Proof.
  intros Hsep. revert cur skip. induction s as [|c s IH]; intros cur skip.
  - discriminate.
  - destruct skip as [|k].
    + rewrite split_go_cons. destruct (String.prefix sep (String c s)).
      * destruct (split_go_head sep s "" (String.length sep - 1)) as [tl ->].
        cbn. intros [= <-]. now apply firstPiece_free.
      * apply IH.
    + rewrite split_go_skip. apply IH.
Qed.

(** X2. Cutting is idempotent: what [cutBase64DataType] returns is returned
    unchanged by a second cut. The inline payload is cut once by the
    classifier and once more by [getMenuList]. *)
Theorem cutBase64DataType_idempotent (v : Js.Str) :
  cutBase64DataType (cutBase64DataType v) = cutBase64DataType v.
Proof.
  assert (H : cutBase64DataType v = v \/ cutBase64DataType v = None
              \/ exists y, cutBase64DataType v = Some y
                           /\ Js.includes y "base64," = false).
  { unfold cutBase64DataType.
    destruct (negb (Js.truthy v) || negb (Js.includes (Js.toString v) "base64,"));
      [now left | right].
    unfold Js.at_, Js.split. cbv beta iota.
    destruct (nth_error (Js.split_go "base64," (Js.toString v) "" 0) 1)
      as [y|] eqn:Hy; [right | now left].
    exists y. split; [reflexivity|].
    apply split_go_second_free in Hy; [exact Hy | discriminate]. }
  destruct H as [H | [H | [y [H Hy]]]]; rewrite H.
  - exact H.
  - reflexivity.
  - unfold cutBase64DataType. cbn [Js.toString]. rewrite Hy.
    now rewrite orb_true_r.
Qed.

(** ** Icon references: fields and separator *)

Lemma split_go_char_free (x : ascii) (seg rest cur : string) :
  Js.includes seg (String x "") = false ->
  Js.split_go (String x "") (seg +:+ rest) cur 0
  = Js.split_go (String x "") rest (cur +:+ seg) 0.
Proof.
  revert cur. induction seg as [|c seg IH]; intros cur H.
  - simpl. now rewrite append_nil_r.
  - apply includes_cons_false in H as [Hp Hi].
    change (String c seg +:+ rest) with (String c (seg +:+ rest)).
    rewrite split_go_cons, prefix_char. rewrite prefix_char in Hp.
    destruct (Ascii.ascii_dec x c); [discriminate|].
    rewrite (IH _ Hi), append_assoc. reflexivity.
Qed.

Lemma split_go_field (x : ascii) (a b cur : string) :
  Js.includes a (String x "") = false ->
  Js.split_go (String x "") (a +:+ String x "" +:+ b) cur 0
  = (cur +:+ a) :: Js.split_go (String x "") b "" 0.
Proof.
  intros H. rewrite (split_go_char_free _ _ _ _ H).
  change (String x "" +:+ b) with (String x b).
  rewrite split_go_cons, prefix_char.
  destruct (Ascii.ascii_dec x x); [reflexivity | contradiction].
Qed.

(** Splitting what [join] wrote gives the fields back, when no field holds
    the separator. *)
Lemma split_join (x : ascii) (fields : list string) :
  fields <> [] ->
  Forall (fun f => ~ occurs (String x "") f) fields ->
  Js.split (join (String x "") fields) (String x "") = fields.
Proof.
  intros Hne Hall. unfold Js.split. cbv beta iota.
  induction fields as [|f rest IH]; [contradiction|].
  apply Forall_cons_iff in Hall as [Hf Hrest]. apply includes_false in Hf.
  destruct rest as [|f' rest'].
  - cbn [join]. now rewrite (split_go_none _ _ _ Hf).
  - change (join (String x "") (f :: f' :: rest'))
      with (f +:+ String x "" +:+ join (String x "") (f' :: rest')).
    rewrite (split_go_field _ _ _ _ Hf). f_equal. apply IH; [discriminate | exact Hrest].
Qed.

Lemma separator_is_char (icon : Js.Str) (sep : string) :
  getIconSeparator icon = Some sep ->
  Js.truthy icon = true /\ exists x, sep = String x "".
Proof.
  unfold getIconSeparator. destruct (Js.truthy icon); [|discriminate].
  cbn [negb]. intros H. split; [reflexivity|].
  apply find_some in H as [Hin _]. simpl in Hin.
  repeat destruct Hin as [<-|Hin]; try (eexists; reflexivity). contradiction.
Qed.

(** The fields of a reference, read back with the separator that is picked. *)
Lemma reference_fields (g : Globals) (sep : string) (fields : list string) :
  fields <> [] ->
  Forall (fun f => ~ occurs sep f) fields ->
  getIconSeparator (Some (join sep fields)) = Some sep ->
  getSvgColors (Some (join sep fields))
  = Some {| iconColor := nth_error fields 1; bgColor := nth_error fields 2 |} /\
  getMaterialIcon g (Some (join sep fields))
  = Some (getMaterialIconLink (nth_error fields 0)
            (numOr (parseInt (nth_error fields 3)) (ICONS_WEIGHT g))
            (nth_error fields 4)).
Proof.
  intros Hne Hall Hsep.
  destruct (separator_is_char _ _ Hsep) as [Ht [x ->]].
  unfold getSvgColors, getMaterialIcon. rewrite Ht, Hsep. cbn [negb Js.truthy].
  cbn [Js.toString]. rewrite (split_join x fields Hne Hall). split; reflexivity.
Qed.

(** X3. An icon reference is read back field by field. When the reference
    is the fields written with the separator that [getIconSeparator]
    picks, and no field holds that separator, the colours are the second
    and third field and the link is built from the first, fourth and fifth;
    a field that is not written is [undefined]. *)
Theorem icon_reference_fields (g : Globals) (sep : string) (fields : list string) :
  fields <> [] ->
  Forall (fun f => ~ occurs sep f) fields ->
  getIconSeparator (Some (join sep fields)) = Some sep ->
  getSvgColors (Some (join sep fields))
  = Some {| iconColor := nth_error fields 1; bgColor := nth_error fields 2 |} /\
  getMaterialIcon g (Some (join sep fields))
  = Some (getMaterialIconLink (nth_error fields 0)
            (numOr (parseInt (nth_error fields 3)) (ICONS_WEIGHT g))
            (nth_error fields 4)).
Proof. apply reference_fields. Qed.

Lemma icon_reference_fields_witness :
  getSvgColors (Some "home;red;blue")
  = Some {| iconColor := Some "red"; bgColor := Some "blue" |} /\
  getMaterialIcon defaults (Some "home;red;blue")
  = Some (getMaterialIconLink (Some "home") 400 None).
Proof.
  apply (icon_reference_fields defaults ";" ["home"; "red"; "blue"]).
  - discriminate.
  - repeat constructor; apply includes_false; reflexivity.
  - reflexivity.
Defined.

(** ** The style of a link *)

(** X4. The style of a link is [outlined] only for the style value
    ["outlined"] itself; every other value, a missing one included, gives
    [rounded]. The style is in the eighth path segment, after
    [materialsymbols]. *)
Theorem link_style_segment (icon : Js.Str) (weight : Z) (style : Js.Str) :
  nth_error (Js.split (getMaterialIconLink icon weight style) "/") 7
  = Some ("materialsymbols"
          +:+ if Js.strictEq style (Some "outlined") then "outlined"
              else "rounded").
Proof.
  unfold getMaterialIconLink.
  assert (Hst : (if negb (Js.strictEq style (Some "rounded"))
                    && negb (Js.strictEq style (Some "outlined"))
                 then "rounded" else Js.toString style)
                = if Js.strictEq style (Some "outlined") then "outlined"
                  else "rounded").
  { destruct style as [st|]; [|reflexivity]. cbn [Js.strictEq Js.toString].
    destruct (String.eqb st "outlined") eqn:Eo.
    - apply String.eqb_eq in Eo as ->. reflexivity.
    - destruct (String.eqb st "rounded") eqn:Er; [|reflexivity].
      apply String.eqb_eq in Er as ->. reflexivity. }
  rewrite Hst.
  generalize (Js.toString icon +:+ "/"
              +:+ (if weight =? 400 then "default"
                   else "wght" +:+ Js.numToString weight) +:+ "/48px.svg").
  intros rest. unfold Js.split. cbv beta iota.
  destruct (Js.strictEq style (Some "outlined")).
  - change (iconHost +:+ "outlined" +:+ "/" +:+ rest)
      with ("https:" +:+ "/" +:+ "" +:+ "/" +:+ "fonts.gstatic.com" +:+ "/"
              +:+ "s" +:+ "/" +:+ "i" +:+ "/" +:+ "short-term" +:+ "/"
              +:+ "release" +:+ "/" +:+ "materialsymbolsoutlined" +:+ "/"
              +:+ rest).
    rewrite !split_go_segment by reflexivity. reflexivity.
  - change (iconHost +:+ "rounded" +:+ "/" +:+ rest)
      with ("https:" +:+ "/" +:+ "" +:+ "/" +:+ "fonts.gstatic.com" +:+ "/"
              +:+ "s" +:+ "/" +:+ "i" +:+ "/" +:+ "short-term" +:+ "/"
              +:+ "release" +:+ "/" +:+ "materialsymbolsrounded" +:+ "/"
              +:+ rest).
    rewrite !split_go_segment by reflexivity. reflexivity.
Qed.

(** ** Configuration *)

Lemma numOr_nonzero (n : option Z) (d : Z) : d <> 0 -> numOr n d <> 0.
Proof.
  intros Hd. unfold numOr. destruct n as [k|]; [|exact Hd].
  destruct (k =? 0) eqn:E; [exact Hd | now apply Z.eqb_neq].
Qed.

(** X5. Zero cannot be configured for the icon size or the icon weight:
    [prepareVariables] replaces it by the default, as it does a missing
    value. And whatever the weight field of an icon reference holds, the
    weight it resolves to under prepared globals is never zero. *)
Theorem prepared_size_and_weight_nonzero (menu : option (list MenuNode))
    (parameters : InitialParameters) (icon : Js.Str) :
  let g := prepareVariables menu parameters in
  IMAGE_SIZE g <> 0 /\ ICONS_WEIGHT g <> 0 /\ resolvedWeight g icon <> 0.
Proof.
  cbv zeta. unfold resolvedWeight, prepareVariables.
  cbn [IMAGE_SIZE ICONS_WEIGHT].
  assert (H4 : numOr (iconsWeight parameters) 400 <> 0)
    by (apply numOr_nonzero; discriminate).
  repeat split.
  - apply numOr_nonzero. discriminate.
  - exact H4.
  - destruct (getIconSeparator icon); [now apply numOr_nonzero | exact H4].
Qed.

(** ** [parseInt] reads back what [toString] prints *)

Lemma parseDigits_uint (d : Decimal.uint) (acc : Z) :
  parseDigits 10 (NilEmpty.string_of_uint d) (Some acc)
  = Some (digitsValue d acc).
Proof.
  revert acc. induction d; intros acc; cbn [NilEmpty.string_of_uint digitsValue];
    try reflexivity;
    (etransitivity; [|apply IHd]);
    cbn [parseDigits]; vm_compute digitValue; cbv iota;
    change (default 0 (Some acc)) with acc;
    match goal with
    | |- (if ?k <? 10 then _ else _) = _ =>
        replace (k <? 10) with true by reflexivity
    end; f_equal; f_equal; lia.
Qed.

Lemma digitsValue_pos (d : Decimal.uint) (p : positive) :
  digitsValue d (Z.pos p) = Z.pos (Pos.of_uint_acc d p).
Proof.
  revert p. induction d; intros p; cbn [digitsValue Pos.of_uint_acc];
    try reflexivity;
    match goal with
    | |- digitsValue _ ?a = Z.pos (Pos.of_uint_acc _ ?q) =>
        replace a with (Z.pos q) by lia; apply IHd
    end.
Qed.

Lemma digitsValue_of_uint (d : Decimal.uint) :
  digitsValue d 0 = Z.of_N (Pos.of_uint d).
Proof.
  induction d; cbn [digitsValue Pos.of_uint]; try reflexivity;
    try exact IHd;
    match goal with
    | |- digitsValue _ ?a = Z.of_N (N.pos (Pos.of_uint_acc _ ?q)) =>
        change a with (Z.pos q); apply digitsValue_pos
    end.
Qed.

Lemma parseInt_digit_string (d : Decimal.uint) :
  d <> Decimal.Nil ->
  parseInt (Some (NilEmpty.string_of_uint d))
  = Z.mul 1 <$> parseDigits 10 (NilEmpty.string_of_uint d) None.
Proof.
  intros Hd. destruct d as [|d|d|d|d|d|d|d|d|d|d]; [contradiction|..];
    cbn [NilEmpty.string_of_uint];
    try (generalize (NilEmpty.string_of_uint d); intros t; reflexivity).
  destruct d; cbn [NilEmpty.string_of_uint]; try reflexivity;
    generalize (NilEmpty.string_of_uint d); intros t; reflexivity.
Qed.

Lemma parseDigits_uint_start (d : Decimal.uint) :
  d <> Decimal.Nil ->
  parseDigits 10 (NilEmpty.string_of_uint d) None = Some (digitsValue d 0).
Proof.
  intros Hd. destruct d as [|d|d|d|d|d|d|d|d|d|d]; [contradiction|..];
    cbn [NilEmpty.string_of_uint digitsValue];
    (etransitivity; [|apply parseDigits_uint]); reflexivity.
Qed.

Lemma parseInt_of_uint (d : Decimal.uint) :
  parseInt (Some (NilZero.string_of_uint d)) = Some (Z.of_N (Pos.of_uint d)).
Proof.
  rewrite <- digitsValue_of_uint. unfold NilZero.string_of_uint.
  destruct d as [|d|d|d|d|d|d|d|d|d|d]; [reflexivity|..];
    (rewrite parseInt_digit_string, parseDigits_uint_start by discriminate;
     cbn [fmap option_fmap option_map]; f_equal; lia).
Qed.

Lemma parseInt_negative_digit_string (d : Decimal.uint) :
  d <> Decimal.Nil ->
  parseInt (Some (String "-" (NilEmpty.string_of_uint d)))
  = Z.mul (-1) <$> parseDigits 10 (NilEmpty.string_of_uint d) None.
Proof.
  intros Hd. destruct d as [|d|d|d|d|d|d|d|d|d|d]; [contradiction|..];
    cbn [NilEmpty.string_of_uint];
    try (generalize (NilEmpty.string_of_uint d); intros t; reflexivity).
  destruct d; cbn [NilEmpty.string_of_uint]; try reflexivity;
    generalize (NilEmpty.string_of_uint d); intros t; reflexivity.
Qed.

Lemma parseInt_of_negative (d : Decimal.uint) :
  parseInt (Some (String "-" (NilZero.string_of_uint d)))
  = Some (- Z.of_N (Pos.of_uint d)).
Proof.
  rewrite <- digitsValue_of_uint. unfold NilZero.string_of_uint.
  destruct d as [|d|d|d|d|d|d|d|d|d|d]; [reflexivity|..];
    (rewrite parseInt_negative_digit_string, parseDigits_uint_start by discriminate;
     cbn [fmap option_fmap option_map]; f_equal; lia).
Qed.

(** The decimal form of an integer parses to the integer. *)
Lemma parseInt_decimal (n : Z) :
  parseInt (Some (Js.numToString n)) = Some n.
Proof.
  unfold Js.numToString. rewrite <- (DecimalZ.of_to n) at 2.
  destruct (Z.to_int n) as [d|d]; cbn [NilZero.string_of_int Z.of_int].
  - rewrite parseInt_of_uint. reflexivity.
  - rewrite parseInt_of_negative. reflexivity.
Qed.

(** ** References written with the semicolon *)

Lemma semicolon_separator (f0 f1 : string) (rest : list string) :
  getIconSeparator (Some (join ";" (f0 :: f1 :: rest))) = Some ";".
Proof.
  unfold getIconSeparator.
  assert (Ho : occurs ";" (join ";" (f0 :: f1 :: rest))).
  { exists f0, (join ";" (f1 :: rest)). reflexivity. }
  assert (Ht : Js.truthy (Some (join ";" (f0 :: f1 :: rest))) = true).
  { destruct Ho as [a [b ->]]. now destruct a. }
  rewrite Ht. cbn [negb Js.toString]. unfold separators. cbn [find].
  apply includes_spec in Ho. now rewrite Ho.
Qed.

(** The fields of a reference written with semicolons. *)
Lemma semicolon_fields (g : Globals) (f0 f1 : string)
    (rest : list string) :
  Forall (fun f => ~ occurs ";" f) (f0 :: f1 :: rest) ->
  getIconSeparator (Some (join ";" (f0 :: f1 :: rest))) = Some ";" /\
  getSvgColors (Some (join ";" (f0 :: f1 :: rest)))
  = Some {| iconColor := Some f1; bgColor := nth_error rest 0 |} /\
  getMaterialIcon g (Some (join ";" (f0 :: f1 :: rest)))
  = Some (getMaterialIconLink (Some f0)
            (numOr (parseInt (nth_error rest 1)) (ICONS_WEIGHT g))
            (nth_error rest 2)).
Proof.
  intros Hall. pose proof (semicolon_separator f0 f1 rest) as Hsep.
  split; [exact Hsep|].
  apply (reference_fields g ";" (f0 :: f1 :: rest));
    [discriminate | exact Hall | exact Hsep].
Qed.

(** X6. The semicolon is the first delimiter of the list, so in a reference
    written with semicolons the fields may hold any other delimiter
    character (a colour such as [#ff0000], a name with a dot): the
    reference is still read back field by field. *)
Theorem semicolon_reference_fields (g : Globals) (f0 f1 : string)
    (rest : list string) :
  Forall (fun f => ~ occurs ";" f) (f0 :: f1 :: rest) ->
  getIconSeparator (Some (join ";" (f0 :: f1 :: rest))) = Some ";" /\
  getSvgColors (Some (join ";" (f0 :: f1 :: rest)))
  = Some {| iconColor := Some f1; bgColor := nth_error rest 0 |} /\
  getMaterialIcon g (Some (join ";" (f0 :: f1 :: rest)))
  = Some (getMaterialIconLink (Some f0)
            (numOr (parseInt (nth_error rest 1)) (ICONS_WEIGHT g))
            (nth_error rest 2)).
Proof. apply semicolon_fields. Qed.

Lemma semicolon_reference_fields_witness :
  getIconSeparator (Some "home;#ff0000;rgb(0,0,0);700;outlined") = Some ";" /\
  getSvgColors (Some "home;#ff0000;rgb(0,0,0);700;outlined")
  = Some {| iconColor := Some "#ff0000"; bgColor := Some "rgb(0,0,0)" |} /\
  getMaterialIcon defaults (Some "home;#ff0000;rgb(0,0,0);700;outlined")
  = Some (getMaterialIconLink (Some "home") 700 (Some "outlined")).
Proof.
  apply (semicolon_reference_fields defaults "home" "#ff0000"
           ["rgb(0,0,0)"; "700"; "outlined"]).
  repeat constructor; apply includes_false; reflexivity.
Defined.

Lemma uint_semicolon_free (d : Decimal.uint) :
  Js.includes (NilEmpty.string_of_uint d) ";" = false.
Proof.
  induction d; try reflexivity;
    cbn [NilEmpty.string_of_uint]; rewrite includes_cons, prefix_char, IHd;
    reflexivity.
Qed.

Lemma numToString_semicolon_free (n : Z) :
  Js.includes (Js.numToString n) ";" = false.
Proof.
  unfold Js.numToString, NilZero.string_of_int, NilZero.string_of_uint.
  destruct (Z.to_int n) as [d|d].
  - destruct d; try reflexivity; apply uint_semicolon_free.
  - rewrite includes_cons, prefix_char.
    destruct d; try reflexivity; apply uint_semicolon_free.
Qed.

(** X7. A weight written into a reference reaches the link. When the fourth
    field of a semicolon reference is the decimal form of a non-zero
    integer [w] that a double holds exactly (at most 2^53 in absolute
    value), the reference resolves to [w], whatever weight is configured,
    and the weight segment of its link is the one of [w]: [default] for
    400, [wght] and the same digits otherwise. *)
Theorem written_weight_reaches_link (g : Globals) (name color bg : string)
    (w : Z) (more : list string) :
  w <> 0 ->
  Js.safeInteger w ->
  Forall (fun f => ~ occurs ";" f) (name :: color :: bg :: more) ->
  let reference :=
    Some (join ";" (name :: color :: bg :: Js.numToString w :: more)) in
  resolvedWeight g reference = w /\
  exists link,
    getMaterialIcon g reference = Some link /\
    segmentFromEnd link 1
    = Some (if w =? 400 then "default" else "wght" +:+ Js.numToString w).
Proof.
  intros Hw _ Hall. cbv zeta.
  assert (Hall' : Forall (fun f => ~ occurs ";" f)
                    (name :: color :: bg :: Js.numToString w :: more)).
  { apply Forall_cons_iff in Hall as [H0 Hall].
    apply Forall_cons_iff in Hall as [H1 Hall].
    apply Forall_cons_iff in Hall as [H2 Hall].
    repeat constructor; try assumption.
    apply includes_false, numToString_semicolon_free. }
  destruct (semicolon_fields g name color _ Hall') as [Hsep [_ Hlink]].
  assert (Hres : numOr (parseInt (Some (Js.numToString w))) (ICONS_WEIGHT g) = w).
  { rewrite parseInt_decimal. unfold numOr.
    apply Z.eqb_neq in Hw. now rewrite Hw. }
  split.
  - unfold resolvedWeight. rewrite Hsep. cbn [Js.toString].
    assert (Hne : name :: color :: bg :: Js.numToString w :: more <> [])
      by discriminate.
    rewrite (split_join ";" _ Hne Hall'). cbn [Js.at_ nth_error].
    exact Hres.
  - eexists. split; [exact Hlink|]. cbn [nth_error]. rewrite Hres.
    apply segment_of_link.
Qed.

Lemma written_weight_reaches_link_witness :
  let reference := Some "home;white;teal;200;outlined" in
  resolvedWeight heavy reference = 200 /\
  exists link,
    getMaterialIcon heavy reference = Some link /\
    segmentFromEnd link 1 = Some "wght200".
Proof.
  apply (written_weight_reaches_link heavy "home" "white" "teal" 200 ["outlined"]).
  - lia.
  - unfold Js.safeInteger. lia.
  - repeat constructor; apply includes_false; reflexivity.
Defined.

(** ** The routes of a resolution *)

Section Routes.

Context (P : Platform).

Ltac run_route :=
  repeat (unfold bind, emit, liftWorld, prop, ret; cbn).

(** X8. A response with status 200 and an empty body counts as a failed
    request: for the vector reference and for the remote link the
    resolution is the empty string, with that one request and no other call
    to the host. *)
Theorem empty_body_resolves_empty (g : Globals) (image : ImageInfo)
    (h : Host P) (mime : string) (w' : World P) :
  (type image = Some "svg" /\ mime = "image/svg+xml") \/
  (type image = Some "jpg" /\ mime = "text/plain; charset=x-user-defined") ->
  xhr_send P (world h) (source image) mime = (w', Response 200 "") ->
  convertImageUrlToBase64 P g image h
  = (mkHost w' (log h ++ [EvXhr (source image) mime]),
     Normal (Fulfilled (Some ""))).
Proof.
  intros Hkind Hxhr. unfold convertImageUrlToBase64, getImageFromUrl.
  destruct Hkind as [[-> ->] | [-> ->]]; run_route; rewrite Hxhr; reflexivity.
Qed.


(** X10. A vector icon that is fetched is recoloured, encoded and drawn, in
    this order, when the serialized document is one [btoa] takes. The
    colour of the paths is the second field of the reference, or the
    configured colour; the tile is filled with the third field, or the
    configured background. When one of these two gives the background no
    random colour is drawn. The promise is fulfilled with the data URL of
    the canvas, stays unsettled when the image never loads, and is
    rejected when the executor throws. *)
Theorem vector_icon_is_recoloured_and_drawn (g : Globals) (image : ImageInfo)
    (h : Host P) (w1 w2 : World P) (body svgString : string)
    (drawing : Drawing) :
  let color :=
    Js.toString (Js.or (svgColors image ≫= iconColor) (Some (ICONS_COLOR g))) in
  let fill := Js.or (svgColors image ≫= bgColor) (ICONS_BACKGROUND g) in
  type image = Some "svg" ->
  xhr_send P (world h) (source image) "image/svg+xml"
  = (w1, Response 200 body) ->
  body <> "" ->
  recolorSvg P body "image/svg+xml" color = Latin1 svgString ->
  btoa P svgString <> "" ->
  Js.truthy fill = true ->
  canvasToDataURL P w1 g (Js.toString fill)
    ("data:image/svg+xml;base64," +:+ btoa P svgString) = (w2, drawing) ->
  convertImageUrlToBase64 P g image h
  = (mkHost w2 (log h ++ [EvXhr (source image) "image/svg+xml";
                          EvRecolor; EvBtoa; EvCanvas]),
     Normal match drawing with
            | Drawn url => Fulfilled (Some url)
            | NeverLoads => Unsettled
            | ExecutorThrows => Rejected
            end).
Proof.
  cbv zeta. intros Htype Hxhr Hbody Hsvg Henc Hfill Hcanvas.
  unfold convertImageUrlToBase64, getImageFromUrl, getColorizedSvgBase64,
    getImageBas64, convertSvgToPng, getRandomColor.
  rewrite Htype. run_route. rewrite Hxhr. run_route.
  destruct body as [|c body]; [contradiction|]. run_route.
  rewrite Hsvg. run_route.
  destruct (btoa P _) as [|e enc] eqn:Eenc; [contradiction|]. run_route.
  rewrite Hfill. run_route. cbn in Hcanvas. rewrite Hcanvas.
  rewrite <- !app_assoc. now destruct drawing.
Qed.

(** X11. With no background in the reference and none configured, the tile
    of a fetched vector icon is filled with a random colour: the colour
    [getRandomColor] makes of one round of draws, taken once, after the
    encoding and before the canvas. The promise follows the canvas as in
    X10. *)
Theorem vector_icon_gets_random_background (g : Globals) (image : ImageInfo)
    (h : Host P) (w1 w2 w3 : World P) (body svgString : string)
    (draws : RandomDraws) (drawing : Drawing) :
  let color :=
    Js.toString (Js.or (svgColors image ≫= iconColor) (Some (ICONS_COLOR g))) in
  let random :=
    getRandomColorFrom (coin draws) (floor128 draws) (floorLetters draws) in
  type image = Some "svg" ->
  xhr_send P (world h) (source image) "image/svg+xml"
  = (w1, Response 200 body) ->
  body <> "" ->
  recolorSvg P body "image/svg+xml" color = Latin1 svgString ->
  btoa P svgString <> "" ->
  Js.truthy (Js.or (svgColors image ≫= bgColor) (ICONS_BACKGROUND g)) = false ->
  mathRandom P w1 = (w2, draws) ->
  canvasToDataURL P w2 g random
    ("data:image/svg+xml;base64," +:+ btoa P svgString) = (w3, drawing) ->
  convertImageUrlToBase64 P g image h
  = (mkHost w3 (log h ++ [EvXhr (source image) "image/svg+xml";
                          EvRecolor; EvBtoa; EvRandomColor; EvCanvas]),
     Normal match drawing with
            | Drawn url => Fulfilled (Some url)
            | NeverLoads => Unsettled
            | ExecutorThrows => Rejected
            end).
Proof.
  cbv zeta. intros Htype Hxhr Hbody Hsvg Henc Hfill Hrandom Hcanvas.
  unfold convertImageUrlToBase64, getImageFromUrl, getColorizedSvgBase64,
    getImageBas64, convertSvgToPng, getRandomColor.
  rewrite Htype. run_route. rewrite Hxhr. run_route.
  destruct body as [|c body]; [contradiction|]. run_route.
  rewrite Hsvg. run_route.
  destruct (btoa P _) as [|e enc] eqn:Eenc; [contradiction|]. run_route.
  rewrite Hfill. run_route. rewrite Hrandom. run_route.
  cbn in Hcanvas. rewrite Hcanvas.
  rewrite <- !app_assoc. now destruct drawing.
Qed.

(** X22. A fetched vector icon whose serialized document [btoa] or
    [encodeURIComponent] refuses makes the resolution throw, after the
    request and the recolouring: InvalidCharacterError from [btoa] for a
    code unit above 255, URIError from [encodeURIComponent] for a lone
    surrogate. No promise is made and the canvas is never reached. *)
Theorem unencodable_vector_icon_throws (g : Globals) (image : ImageInfo)
    (h : Host P) (w1 : World P) (body : string) :
  let color :=
    Js.toString (Js.or (svgColors image ≫= iconColor) (Some (ICONS_COLOR g))) in
  type image = Some "svg" ->
  xhr_send P (world h) (source image) "image/svg+xml"
  = (w1, Response 200 body) ->
  body <> "" ->
  (recolorSvg P body "image/svg+xml" color = NotLatin1 ->
   convertImageUrlToBase64 P g image h
   = (mkHost w1 (log h ++ [EvXhr (source image) "image/svg+xml";
                           EvRecolor; EvBtoa]),
      Throw InvalidCharacterError)) /\
  (recolorSvg P body "image/svg+xml" color = LoneSurrogate ->
   convertImageUrlToBase64 P g image h
   = (mkHost w1 (log h ++ [EvXhr (source image) "image/svg+xml"; EvRecolor]),
      Throw URIError)).
Proof.
  cbv zeta. intros Htype Hxhr Hbody.
  split; intros Hsvg;
    unfold convertImageUrlToBase64, getImageFromUrl, getColorizedSvgBase64;
    rewrite Htype; run_route; rewrite Hxhr; run_route;
    (destruct body as [|c body]; [contradiction|]); run_route;
    rewrite Hsvg; run_route; now rewrite <- !app_assoc.
Qed.

End Routes.

(** ** The bytes of a remote image *)




(** ** The decorator on a whole menu *)

Lemma decorated_unfold (n : MenuNode) :
  decorated n
  = match icon n, base64 n, imageUrl n, base64Promise n with
    | None, None, None, Some _ => true
    | _, _, _, _ => false
    end
    && match subtitle n with
       | Some s => Js.truthy (Some s)
       | None => true
       end
    && match children n with
       | Some [] => false
       | Some nodes => forallb decorated nodes
       | None => true
       end.
Proof.
  destruct n as [i t st ch ic b u pr]. cbn [decorated children].
  f_equal.
Qed.

Lemma inlineOnly_unfold (n : MenuNode) :
  inlineOnly n
  = Js.truthy (base64 n)
    && match children n with
       | Some nodes => forallb inlineOnly nodes
       | None => true
       end.
Proof.
  destruct n as [i t st ch ic b u pr]. cbn [inlineOnly children base64].
  f_equal.
Qed.

Section Decorator.

Context (P : Platform) (g : Globals).

(** What [updateMenuItem] returns, spelled out on a normal completion. *)
Lemma updateMenuItem_normal (n n' : MenuNode) (h h' : Host P) :
  updateMenuItem P g n h = (h', Normal n') ->
  exists promise h1 kids,
    convertImageUrlToBase64 P g (imageInfo g n) h = (h1, Normal promise) /\
    match children n with
    | Some (c :: cs) =>
        exists l, updateMenuItems P g (c :: cs) h1 = (h', Normal l)
                  /\ kids = Some l
    | _ => h' = h1 /\ kids = None
    end /\
    n' = {| id := id n; title := title n;
            subtitle := subtitle (deleteItemProperties n);
            children := kids; icon := None; base64 := None; imageUrl := None;
            base64Promise := Some promise |}.
Proof.
  rewrite updateMenuItem_unfold, bind_eq.
  destruct (convertImageUrlToBase64 P g (imageInfo g n) h) as [h1 [p|e]];
    [|discriminate].
  rewrite bind_eq. intros H. exists p, h1.
  destruct (children n) as [[|c cs]|].
  - cbn in H. injection H as <- <-. exists None. auto.
  - rewrite bind_eq in H.
    destruct (updateMenuItems P g (c :: cs) h1) as [h2 [l|e]] eqn:E2;
      [|discriminate].
    cbn in H. injection H as <- <-. exists (Some l). split; [reflexivity|].
    split; [|reflexivity]. exists l. auto.
  - cbn in H. injection H as <- <-. exists None. auto.
Qed.

Lemma updateMenuItems_normal (l l' : list MenuNode) (h h' : Host P) :
  updateMenuItems P g l h = (h', Normal l') ->
  match l with
  | [] => l' = [] /\ h' = h
  | x :: rest =>
      exists x' rest' h1,
        updateMenuItem P g x h = (h1, Normal x') /\
        updateMenuItems P g rest h1 = (h', Normal rest') /\
        l' = x' :: rest'
  end.
Proof.
  destruct l as [|x rest]; cbn [updateMenuItems].
  - intros [= <- <-]. auto.
  - rewrite bind_eq.
    destruct (updateMenuItem P g x h) as [h1 [x'|e]]; [|discriminate].
    rewrite bind_eq.
    destruct (updateMenuItems P g rest h1) as [h2 [rest'|e]] eqn:E2;
      [|discriminate].
    cbn. intros [= <- <-]. exists x', rest', h1. auto.
Qed.

Lemma decorator_contract_list (l : list MenuNode) :
  Forall (fun n => forall h h' n',
            updateMenuItem P g n h = (h', Normal n') -> decorated n' = true) l ->
  forall h h' l',
    updateMenuItems P g l h = (h', Normal l') ->
    forallb decorated l' = true /\ length l' = length l.
Proof.
  induction 1 as [|x rest Hx _ IH]; intros h h' l' H;
    apply updateMenuItems_normal in H.
  - destruct H as [-> _]. auto.
  - destruct H as [x' [rest' [h1 [H1 [H2 ->]]]]].
    destruct (IH _ _ _ H2) as [Hd Hl].
    cbn [forallb length]. rewrite (Hx _ _ _ H1), Hd, Hl. auto.
Qed.

Lemma decorator_contract_node (n : MenuNode) :
  forall h h' n',
    updateMenuItem P g n h = (h', Normal n') -> decorated n' = true.
Proof.
  induction n as [n IH] using MenuNode_tree_ind. intros h h' n' H.
  apply updateMenuItem_normal in H as [p [h1 [kids [_ [Hk ->]]]]].
  rewrite decorated_unfold. cbn [icon base64 imageUrl base64Promise subtitle children].
  apply andb_true_intro. split; [apply andb_true_intro; split; [reflexivity|]|].
  - unfold deleteItemProperties. cbn [subtitle].
    destruct (subtitle n) as [[|c s]|]; reflexivity.
  - destruct (children n) as [[|c cs]|] eqn:E.
    + destruct Hk as [_ ->]. reflexivity.
    + destruct Hk as [l [Hl ->]].
      destruct (decorator_contract_list _ (IH _ eq_refl) _ _ _ Hl) as [Hd Hlen].
      destruct l; [discriminate Hlen | exact Hd].
    + destruct Hk as [_ ->]. reflexivity.
Qed.

(** X12. The contract of the decorator. When [updateMenuItems] completes,
    every node of the menu it leaves, at every depth, has lost [icon],
    [base64] and [imageUrl], carries a promise, has no empty subtitle and
    no empty list of children; and the menu has as many top-level nodes as
    before. *)
Theorem decorator_contract (menu menu' : list MenuNode) (h h' : Host P) :
  updateMenuItems P g menu h = (h', Normal menu') ->
  forallb decorated menu' = true /\ length menu' = length menu.
Proof.
  apply decorator_contract_list. apply Forall_forall. intros n _.
  apply decorator_contract_node.
Qed.

Lemma decorator_keeps_labels_list (key : string) (l : list MenuNode) :
  Forall (fun n => forall key h h' n',
            updateMenuItem P g n h = (h', Normal n') ->
            map label (records key n') = map label (records key n)) l ->
  forall h h' l',
    updateMenuItems P g l h = (h', Normal l') ->
    map label (recordsAll key l') = map label (recordsAll key l).
Proof.
  induction 1 as [|x rest Hx _ IH]; intros h h' l' H;
    apply updateMenuItems_normal in H.
  - destruct H as [-> _]. reflexivity.
  - destruct H as [x' [rest' [h1 [H1 [H2 ->]]]]].
    cbn [recordsAll]. rewrite !map_app, (Hx _ _ _ _ H1), (IH _ _ _ H2).
    reflexivity.
Qed.

Lemma decorator_keeps_labels_node (n : MenuNode) :
  forall key h h' n',
    updateMenuItem P g n h = (h', Normal n') ->
    map label (records key n') = map label (records key n).
Proof.
  induction n as [n IH] using MenuNode_tree_ind. intros key h h' n' H.
  apply updateMenuItem_normal in H as [p [h1 [kids [_ [Hk ->]]]]].
  rewrite !records_unfold. cbn [map children id]. f_equal.
  - unfold label, deleteItemProperties. cbn [fst snd id title subtitle].
    destruct (subtitle n) as [[|c s]|]; reflexivity.
  - destruct (children n) as [[|c cs]|] eqn:E.
    + destruct Hk as [_ ->]. reflexivity.
    + destruct Hk as [l [Hl ->]].
      apply (decorator_keeps_labels_list _ _ (IH _ eq_refl) _ _ _ Hl).
    + destruct Hk as [_ ->]. reflexivity.
Qed.

(** X13. The decorator changes the image fields only. When it completes, the
    records of the menu, in depth-first pre-order, have the keys, ids,
    titles and non-empty subtitles they had before, in the same order. *)
Theorem decorator_keeps_labels (menu menu' : list MenuNode) (h h' : Host P) :
  updateMenuItems P g menu h = (h', Normal menu') ->
  map label (recordsAll "#root" menu') = map label (recordsAll "#root" menu).
Proof.
  apply decorator_keeps_labels_list. apply Forall_forall. intros n _.
  apply decorator_keeps_labels_node.
Qed.

End Decorator.

(** ** Flattening and promises that are not fulfilled *)

Lemma getMenuList_fulfilled (n : MenuNode) :
  is_Some (getMenuList n) <-> is_Some (await (base64Promise n)).
Proof.
  unfold getMenuList. destruct (await (base64Promise n)); cbn.
  - split; intros _; eauto.
  - split; intros [x Hx]; discriminate.
Qed.

Lemma flattenAll_fulfilled (key : string) (l : list MenuNode) :
  Forall (fun n => forall key m,
            is_Some (flatten n key m) <-> Forall fulfilled (records key n)) l ->
  forall m,
    is_Some (flattenAll key l m) <-> Forall fulfilled (recordsAll key l).
Proof.
  induction 1 as [|x rest Hx _ IH]; intros m.
  - cbn. split; [constructor | eauto].
  - cbn [flattenAll recordsAll]. rewrite Forall_app, <- (Hx key m).
    destruct (flatten x key m) as [r|]; cbn [mbind option_bind].
    + rewrite IH. split; [intros H; split; [eauto | exact H] | intros [_ H]; exact H].
    + split; [intros [y Hy]; discriminate | intros [[y Hy] _]; discriminate].
Qed.

Lemma flatten_fulfilled (n : MenuNode) :
  forall key m,
    is_Some (flatten n key m) <-> Forall fulfilled (records key n).
Proof.
  induction n as [n IH] using MenuNode_tree_ind. intros key m.
  rewrite records_unfold, flatten_unfold, Forall_cons_iff. cbv zeta.
  unfold fulfilled at 1. cbn [snd]. rewrite <- getMenuList_fulfilled.
  destruct (getMenuList n) as [block|]; cbn [mbind option_bind].
  - destruct (children n) as [[|c cs]|] eqn:E.
    + split; [intros _; split; [eauto | constructor] | eauto].
    + rewrite (flattenAll_fulfilled _ _ (IH _ eq_refl)).
      split; [intros H; split; [eauto | exact H] | intros [_ H]; exact H].
    + split; [intros _; split; [eauto | constructor] | eauto].
  - split; [intros [y Hy]; discriminate | intros [[y Hy] _]; discriminate].
Qed.

(** Flattening returns exactly on fulfilled promises. *)
Lemma flatten_returns_iff_fulfilled (options : list MenuNode) :
  is_Some (flattenMenuOptions options)
  <-> Forall fulfilled (recordsAll "#root" options).
Proof.
  unfold flattenMenuOptions. apply flattenAll_fulfilled.
  apply Forall_forall. intros n _. apply flatten_fulfilled.
Qed.

(** X14. Flattening returns a mapping exactly when every promise of the
    menu is fulfilled (a node without a promise counts as fulfilled). One
    node, at any depth, whose promise never settles (an image that never
    loads) or is rejected (the executor of [convertSvgToPng] threw) keeps
    [flattenMenuOptions] from returning one: it never resumes, or it
    throws. With all promises fulfilled it returns a mapping, whatever the
    ids are. *)
Theorem flattenMenuOptions_returns_iff_fulfilled (options : list MenuNode) :
  is_Some (flattenMenuOptions options)
  <-> Forall fulfilled (recordsAll "#root" options).
Proof. apply flatten_returns_iff_fulfilled. Qed.

(** ** Menus of inline images *)

Section InlineMenus.

Context (P : Platform) (g : Globals).

Lemma inline_list (l : list MenuNode) :
  Forall (fun n => forall h : Host P,
            inlineOnly n = true ->
            exists n', updateMenuItem P g n h = (h, Normal n')
                       /\ forall key, Forall fulfilled (records key n')) l ->
  forall h : Host P,
    forallb inlineOnly l = true ->
    exists l', updateMenuItems P g l h = (h, Normal l')
               /\ forall key, Forall fulfilled (recordsAll key l').
Proof.
  induction 1 as [|x rest Hx _ IH]; intros h Hall.
  - exists []. split; [reflexivity | constructor].
  - cbn [forallb] in Hall. apply andb_prop in Hall as [H1 H2].
    destruct (Hx h H1) as [x' [Ex Sx]]. destruct (IH h H2) as [rest' [Er Sr]].
    exists (x' :: rest'). split.
    + cbn [updateMenuItems]. rewrite bind_eq, Ex, bind_eq, Er. reflexivity.
    + intros key. cbn [recordsAll]. apply Forall_app. auto.
Qed.

Lemma inline_node (n : MenuNode) :
  forall h : Host P,
    inlineOnly n = true ->
    exists n', updateMenuItem P g n h = (h, Normal n')
               /\ forall key, Forall fulfilled (records key n').
Proof.
  induction n as [n IH] using MenuNode_tree_ind. intros h Hn.
  rewrite inlineOnly_unfold in Hn. apply andb_prop in Hn as [Hb Hkids].
  assert (Hconv : convertImageUrlToBase64 P g (imageInfo g n) h
                  = (h, Normal (Fulfilled (source (imageInfo g n))))).
  { apply convert_inline. unfold imageInfo. cbn [type].
    now rewrite (and_truthy _ _ Hb). }
  destruct (children n) as [[|c cs]|] eqn:E.
  - eexists. split.
    + rewrite updateMenuItem_unfold, bind_eq, Hconv, E, bind_eq.
      unfold ret. reflexivity.
    + intros key. rewrite records_unfold. cbn [children].
      repeat constructor. unfold fulfilled. cbn. eauto.
  - destruct (inline_list _ (IH _ eq_refl) h Hkids) as [l' [El Sl]].
    eexists. split.
    + rewrite updateMenuItem_unfold, bind_eq, Hconv, E, bind_eq, bind_eq, El.
      unfold ret. reflexivity.
    + intros key. rewrite records_unfold. cbn [children id].
      constructor; [unfold fulfilled; cbn; eauto | apply Sl].
  - eexists. split.
    + rewrite updateMenuItem_unfold, bind_eq, Hconv, E, bind_eq.
      unfold ret. reflexivity.
    + intros key. rewrite records_unfold. cbn [children].
      repeat constructor. unfold fulfilled. cbn. eauto.
Qed.

(** X15. A menu in which every node has inline data is decorated and
    flattened without the host: the decorator completes, throws nothing and
    leaves the host as it was (no request, no canvas, no random colour),
    every promise is fulfilled at once, and flattening the decorated menu
    returns a mapping. *)
Theorem inline_menu_needs_no_host (menu : list MenuNode) (h : Host P) :
  forallb inlineOnly menu = true ->
  exists menu' m,
    updateMenuItems P g menu h = (h, Normal menu') /\
    flattenMenuOptions menu' = Some m.
Proof.
  intros Hall.
  destruct (inline_list menu) with (h := h) as [menu' [E S]];
    [apply Forall_forall; intros n _; apply inline_node | exact Hall |].
  destruct (proj2 (flatten_returns_iff_fulfilled menu') (S "#root"))
    as [m Hm].
  exists menu', m. auto.
Qed.

End InlineMenus.

(** ** The photo line of a record *)


(** ** Colours *)

Lemma light_channels_checked :
  forallb (fun k => isLightChannel (numToString16 (Z.of_nat k + 128)))
    (seq 0 128) = true.
Proof. vm_compute. reflexivity. Qed.

Lemma light_channel (v : Z) :
  0 <= v < 128 -> isLightChannel (numToString16 (v + 128)) = true.
Proof.
  intros Hv. pose proof light_channels_checked as H.
  rewrite forallb_forall in H. specialize (H (Z.to_nat v)).
  rewrite Z2Nat.id in H by lia. apply H. apply in_seq. lia.
Qed.

Lemma letters_checked :
  forallb (fun k =>
             match charAt "3456789ABCDEF" (Z.of_nat k) with
             | Some (String c "") => isHexDigit c
             | _ => false
             end) (seq 0 13) = true.
Proof. vm_compute. reflexivity. Qed.

Lemma letter (v : Z) :
  0 <= v < 13 ->
  exists c, charAt "3456789ABCDEF" v = Some (String c "") /\ isHexDigit c = true.
Proof.
  intros Hv. pose proof letters_checked as H.
  rewrite forallb_forall in H. specialize (H (Z.to_nat v)).
  rewrite Z2Nat.id in H by lia.
  destruct (charAt "3456789ABCDEF" v) as [[|c [|]]|];
    try (discriminate H; apply in_seq; lia).
  exists c. split; [reflexivity|]. apply H. apply in_seq. lia.
Qed.

Lemma pastel_is_hex (floor128 : nat -> Z) :
  (forall i, (i < 3)%nat -> 0 <= floor128 i < 128) ->
  isHexColor (generatePastelHexColor floor128) = true /\
  exists r gr b,
    generatePastelHexColor floor128 = "#" +:+ r +:+ gr +:+ b /\
    isLightChannel r = true /\ isLightChannel gr = true /\
    isLightChannel b = true.
Proof.
  intros H.
  pose proof (light_channel _ (H 0%nat ltac:(lia))) as H0.
  pose proof (light_channel _ (H 1%nat ltac:(lia))) as H1.
  pose proof (light_channel _ (H 2%nat ltac:(lia))) as H2.
  unfold generatePastelHexColor. cbn [seq fold_left].
  revert H0 H1 H2.
  generalize (numToString16 (floor128 0%nat + 128)) as r,
             (numToString16 (floor128 1%nat + 128)) as gr,
             (numToString16 (floor128 2%nat + 128)) as b.
  intros r gr b Hr Hg Hb. split.
  - destruct r as [|r1 [|r2 [|]]]; try discriminate Hr.
    destruct gr as [|g1 [|g2 [|]]]; try discriminate Hg.
    destruct b as [|b1 [|b2 [|]]]; try discriminate Hb.
    unfold isLightChannel in Hr, Hg, Hb.
    apply andb_prop in Hr as [Hr _]. apply andb_prop in Hr as [Hr1 Hr2].
    apply andb_prop in Hg as [Hg _]. apply andb_prop in Hg as [Hg1 Hg2].
    apply andb_prop in Hb as [Hb _]. apply andb_prop in Hb as [Hb1 Hb2].
    cbn [String.append isHexColor String.length list_ascii_of_string forallb].
    rewrite Hr1, Hr2, Hg1, Hg2, Hb1, Hb2. reflexivity.
  - exists r, gr, b. repeat split; try assumption.
    now rewrite !append_assoc.
Qed.

(** When the six draws are integers of [0, 13), the indices of the
    alphabet, the soft pastel colour is [#] and six hexadecimal digits. *)
Lemma soft_pastel_is_hex (floorLetters : nat -> Z) :
  (forall i, (i < 6)%nat -> 0 <= floorLetters i < 13) ->
  isHexColor (getRandomSoftPastelColor floorLetters) = true.
Proof.
  intros H. unfold getRandomSoftPastelColor. cbn [seq fold_left].
  destruct (letter _ (H 0%nat ltac:(lia))) as [c0 [-> H0]].
  destruct (letter _ (H 1%nat ltac:(lia))) as [c1 [-> H1]].
  destruct (letter _ (H 2%nat ltac:(lia))) as [c2 [-> H2]].
  destruct (letter _ (H 3%nat ltac:(lia))) as [c3 [-> H3]].
  destruct (letter _ (H 4%nat ltac:(lia))) as [c4 [-> H4]].
  destruct (letter _ (H 5%nat ltac:(lia))) as [c5 [-> H5]].
  cbn [Js.toString String.append isHexColor String.length
       list_ascii_of_string forallb].
  rewrite H0, H1, H2, H3, H4, H5. reflexivity.
Qed.

(** An index outside the alphabet would append the text [undefined]. *)
Example soft_colour_out_of_range :
  getRandomSoftPastelColor (fun _ => 13)
  = "#undefinedundefinedundefinedundefinedundefinedundefined".
Proof. reflexivity. Qed.

(** X17. The pastel colour is a hexadecimal colour of light channels. When
    the three draws are integers of [0, 128), [generatePastelHexColor]
    returns [#] followed by exactly six hexadecimal digits, and each of the
    three channels starts with a digit of 8 or more. *)
Theorem generatePastelHexColor_is_hex (floor128 : nat -> Z) :
  (forall i, (i < 3)%nat -> 0 <= floor128 i < 128) ->
  isHexColor (generatePastelHexColor floor128) = true /\
  exists r gr b,
    generatePastelHexColor floor128 = "#" +:+ r +:+ gr +:+ b /\
    isLightChannel r = true /\ isLightChannel gr = true /\
    isLightChannel b = true.
Proof. apply pastel_is_hex. Qed.

Lemma generatePastelHexColor_is_hex_witness :
  isHexColor (generatePastelHexColor (fun i => 42 * Z.of_nat i)) = true /\
  exists r gr b,
    generatePastelHexColor (fun i => 42 * Z.of_nat i) = "#" +:+ r +:+ gr +:+ b /\
    isLightChannel r = true /\ isLightChannel gr = true /\
    isLightChannel b = true.
Proof.
  apply (generatePastelHexColor_is_hex (fun i => 42 * Z.of_nat i)).
  intros i Hi. lia.
Defined.

(** X18. Every random colour is a hexadecimal colour. Whichever of the two
    generators the coin selects, when the draws are in range (integers of
    [0, 128) for the pastel channels, of [0, 13) for the letters) the
    result is [#] followed by exactly six hexadecimal digits. *)
Theorem getRandomColor_is_hex (coin : Z) (floor128 floorLetters : nat -> Z) :
  (forall i, (i < 3)%nat -> 0 <= floor128 i < 128) ->
  (forall i, (i < 6)%nat -> 0 <= floorLetters i < 13) ->
  isHexColor (getRandomColorFrom coin floor128 floorLetters) = true.
Proof.
  intros H1 H2. unfold getRandomColorFrom. destruct (negb (coin =? 0)).
  - apply pastel_is_hex, H1.
  - apply soft_pastel_is_hex, H2.
Qed.

Lemma getRandomColor_is_hex_witness :
  isHexColor (getRandomColorFrom 0 (fun _ => 0) (fun i => 2 * Z.of_nat i)) = true.
Proof.
  apply (getRandomColor_is_hex 0 (fun _ => 0) (fun i => 2 * Z.of_nat i));
    intros i Hi; lia.
Defined.

(** ** Whole menus: sources and requests *)

Section WholeMenus.

Context (P : Platform) (g : Globals).

(** No field set, or only empty strings: the kind is [undefined] or empty
    and the resolution throws. *)
Lemma convert_without_source (n : MenuNode) (h : Host P) :
  hasSource n = false ->
  convertImageUrlToBase64 P g (imageInfo g n) h = (h, Throw TypeError).
Proof.
  unfold hasSource. intros H.
  apply orb_false_elim in H as [H Hu]. apply orb_false_elim in H as [Hb Hi].
  assert (Ht : type (imageInfo g n) = imageUrl n).
  { unfold imageInfo. cbn [type].
    rewrite (and_falsy _ _ Hb), (or_falsy _ _ Hb), (and_falsy _ _ Hi),
      (or_falsy _ _ Hi), (and_falsy _ _ Hu). reflexivity. }
  apply convert_no_info; rewrite Ht;
    destruct (imageUrl n) as [[|c s]|]; try reflexivity; discriminate Hu.
Qed.

Lemma sources_list (key : string) (l : list MenuNode) :
  Forall (fun n => forall key h h' n',
            updateMenuItem P g n h = (h', Normal n') ->
            Forall (fun r => hasSource (snd r) = true) (records key n)) l ->
  forall h h' l',
    updateMenuItems P g l h = (h', Normal l') ->
    Forall (fun r => hasSource (snd r) = true) (recordsAll key l).
Proof.
  induction 1 as [|x rest Hx _ IH]; intros h h' l' H;
    apply updateMenuItems_normal in H.
  - constructor.
  - destruct H as [x' [rest' [h1 [H1 [H2 ->]]]]].
    cbn [recordsAll]. apply Forall_app. split; [eapply Hx | eapply IH]; eauto.
Qed.

Lemma sources_node (n : MenuNode) :
  forall key h h' n',
    updateMenuItem P g n h = (h', Normal n') ->
    Forall (fun r => hasSource (snd r) = true) (records key n).
Proof.
  induction n as [n IH] using MenuNode_tree_ind. intros key h h' n' H.
  apply updateMenuItem_normal in H as [p [h1 [kids [Hc [Hk _]]]]].
  rewrite records_unfold. constructor.
  - cbn [snd]. destruct (hasSource n) eqn:E; [reflexivity|].
    rewrite (convert_without_source n h E) in Hc. discriminate Hc.
  - destruct (children n) as [[|c cs]|] eqn:E; try constructor.
    destruct Hk as [l [Hl _]].
    apply (sources_list _ _ (IH _ eq_refl) _ _ _ Hl).
Qed.

(** X19. A menu is decorated only if every node has an image source. When
    [updateMenuItems] completes, every node of the menu, at every depth,
    had a non-empty [base64], [icon] or [imageUrl]; so one node without
    any of them, wherever it is, makes the decoration of the whole menu
    end in an exception. *)
Theorem decoration_requires_sources (menu menu' : list MenuNode) (h h' : Host P) :
  updateMenuItems P g menu h = (h', Normal menu') ->
  Forall (fun r => hasSource (snd r) = true) (recordsAll "#root" menu).
Proof.
  apply sources_list. apply Forall_forall. intros n _. apply sources_node.
Qed.

Lemma requests_app (l1 l2 : list Event) :
  requests (l1 ++ l2) = (requests l1 + requests l2)%nat.
Proof.
  induction l1 as [|e l1 IH]; [reflexivity|].
  destruct e; cbn [app requests]; now rewrite IH.
Qed.

Lemma notInline_app (a b : list (string * MenuNode)) :
  notInline (a ++ b) = (notInline a + notInline b)%nat.
Proof.
  induction a as [|r a IH]; [reflexivity|]. cbn [app notInline]. lia.
Qed.

(** A resolution that completes sends one request, or none for the inline
    kind. *)
Lemma convert_requests (image : ImageInfo) (h h' : Host P) (p : Promise) :
  convertImageUrlToBase64 P g image h = (h', Normal p) ->
  requests (log h')
  = (requests (log h)
     + if Js.strictEq (type image) (Some "base64") then 0 else 1)%nat.
Proof.
  unfold convertImageUrlToBase64, getImageFromUrl, getColorizedSvgBase64,
    getImageBas64, convertSvgToPng, getRandomColor.
  destruct (Js.strictEq (type image) (Some "base64")).
  - intros [= <- _]. lia.
  - intros H.
    repeat (unfold bind, emit, liftWorld, prop, ret, throw in H; cbn in H).
    repeat match type of H with
           | context [match ?x with _ => _ end] =>
               lazymatch x with
               | context [match _ with _ => _ end] => fail
               | _ => destruct x; cbn in H
               end
           end;
      try discriminate H;
      injection H as <- _; cbn [log]; rewrite ?requests_app; cbn [requests]; lia.
Qed.

Lemma requests_list (key : string) (l : list MenuNode) :
  Forall (fun n => forall key h h' n',
            updateMenuItem P g n h = (h', Normal n') ->
            requests (log h')
            = (requests (log h) + notInline (records key n))%nat) l ->
  forall h h' l',
    updateMenuItems P g l h = (h', Normal l') ->
    requests (log h') = (requests (log h) + notInline (recordsAll key l))%nat.
Proof.
  induction 1 as [|x rest Hx _ IH]; intros h h' l' H;
    apply updateMenuItems_normal in H.
  - destruct H as [_ ->]. cbn. lia.
  - destruct H as [x' [rest' [h1 [H1 [H2 ->]]]]].
    cbn [recordsAll]. rewrite notInline_app, (IH _ _ _ H2), (Hx key _ _ _ H1).
    lia.
Qed.

Lemma requests_node (n : MenuNode) :
  forall key h h' n',
    updateMenuItem P g n h = (h', Normal n') ->
    requests (log h') = (requests (log h) + notInline (records key n))%nat.
Proof.
  induction n as [n IH] using MenuNode_tree_ind. intros key h h' n' H.
  apply updateMenuItem_normal in H as [p [h1 [kids [Hc [Hk _]]]]].
  apply convert_requests in Hc. rewrite records_unfold. cbn [notInline snd].
  assert (Hkind : Js.strictEq (type (imageInfo g n)) (Some "base64")
                  = Js.truthy (base64 n)).
  { unfold imageInfo. cbn [type]. unfold Js.or, Js.and.
    destruct (Js.truthy (base64 n)) eqn:Hb; [reflexivity|]. rewrite Hb.
    destruct (Js.truthy (icon n)) eqn:Hi; [reflexivity|]. rewrite Hi.
    destruct (Js.truthy (imageUrl n)) eqn:Hu; [reflexivity|].
    destruct (imageUrl n) as [[|c s]|]; try reflexivity. discriminate Hu. }
  rewrite Hkind in Hc.
  destruct (children n) as [[|c cs]|] eqn:E.
  - destruct Hk as [-> _]. cbn [notInline recordsAll]. lia.
  - destruct Hk as [l [Hl _]].
    rewrite (requests_list (idToString (id n)) _ (IH _ eq_refl) _ _ _ Hl), Hc.
    lia.
  - destruct Hk as [-> _]. cbn [notInline]. lia.
Qed.

(** X20. One request per node that has no inline data, and no more. When
    [updateMenuItems] completes, the number of requests it has sent is the
    number of nodes of the menu, at every depth, whose [base64] is empty or
    missing: nothing is fetched for an inline image, and nothing is shared
    between two nodes that name the same icon or link. *)
Theorem decoration_requests (menu menu' : list MenuNode) (h h' : Host P) :
  updateMenuItems P g menu h = (h', Normal menu') ->
  requests (log h')
  = (requests (log h) + notInline (recordsAll "#root" menu))%nat.
Proof.
  apply requests_list. apply Forall_forall. intros n _. apply requests_node.
Qed.

End WholeMenus.

(** ** Grouping by parent *)


(** ** Witnesses of the further properties *)

Lemma empty_body_resolves_empty_witness :
  let image := imageInfo defaults (item "a" "A" (Some "home") None None) in
  convertImageUrlToBase64 silent defaults image startSilent
  = (mkHost (tt : World silent) [EvXhr (source image) "image/svg+xml"],
     Normal (Fulfilled (Some ""))).
Proof.
  apply (empty_body_resolves_empty silent defaults
           (imageInfo defaults (item "a" "A" (Some "home") None None))
           startSilent "image/svg+xml" tt).
  - left. split; reflexivity.
  - reflexivity.
Defined.


Lemma vector_icon_is_recoloured_and_drawn_witness :
  let image := imageInfo defaults (item "a" "A" (Some "home;red;teal") None None) in
  convertImageUrlToBase64 online defaults image startOnline
  = (mkHost (1%nat : World online)
       [EvXhr (source image) "image/svg+xml"; EvRecolor; EvBtoa; EvCanvas],
     Normal (Fulfilled (Some "data:image/png;base64,teal"))).
Proof.
  apply (vector_icon_is_recoloured_and_drawn online defaults
           (imageInfo defaults (item "a" "A" (Some "home;red;teal") None None))
           startOnline 1%nat 1%nat "<svg><path/></svg>"
           "<svg><path/></svg><!--red-->"
           (Drawn "data:image/png;base64,teal")).
  - reflexivity.
  - reflexivity.
  - discriminate.
  - reflexivity.
  - discriminate.
  - reflexivity.
  - reflexivity.
Defined.

Lemma vector_icon_gets_random_background_witness :
  let image := imageInfo defaults (item "a" "A" (Some "home") None None) in
  convertImageUrlToBase64 online defaults image startOnline
  = (mkHost (1%nat : World online)
       [EvXhr (source image) "image/svg+xml"; EvRecolor; EvBtoa;
        EvRandomColor; EvCanvas],
     Normal (Fulfilled (Some "data:image/png;base64,#abcdef"))).
Proof.
  apply (vector_icon_gets_random_background online defaults
           (imageInfo defaults (item "a" "A" (Some "home") None None))
           startOnline 1%nat 1%nat 1%nat "<svg><path/></svg>"
           "<svg><path/></svg><!--white-->"
           (mkRandomDraws 1 (fun i => nth i [43; 77; 111] 0) (fun _ => 0))
           (Drawn "data:image/png;base64,#abcdef")).
  - reflexivity.
  - reflexivity.
  - discriminate.
  - reflexivity.
  - discriminate.
  - reflexivity.
  - reflexivity.
  - reflexivity.
Defined.

Lemma unencodable_vector_icon_throws_witness :
  let image := imageInfo defaults (item "a" "A" (Some "home") None None) in
  convertImageUrlToBase64 wide defaults image startWide
  = (mkHost (tt : World wide)
       [EvXhr (source image) "image/svg+xml"; EvRecolor; EvBtoa],
     Throw InvalidCharacterError).
Proof.
  apply (proj1 (unencodable_vector_icon_throws wide defaults
           (imageInfo defaults (item "a" "A" (Some "home") None None))
           startWide tt "<svg><path/></svg>"
           eq_refl eq_refl ltac:(discriminate))).
  reflexivity.
Defined.

Lemma decorator_contract_witness :
  forallb decorated (shadowingDecorated "p") = true /\
  length (shadowingDecorated "p") = length (shadowing "p").
Proof.
  apply (decorator_contract offline defaults (shadowing "p")
           (shadowingDecorated "p") start start).
  reflexivity.
Defined.

Lemma decorator_keeps_labels_witness :
  map label (recordsAll "#root" (shadowingDecorated "p"))
  = map label (recordsAll "#root" (shadowing "p")).
Proof.
  apply (decorator_keeps_labels offline defaults (shadowing "p")
           (shadowingDecorated "p") start start).
  reflexivity.
Defined.

Lemma decoration_requires_sources_witness :
  Forall (fun r => hasSource (snd r) = true) (recordsAll "#root" (shadowing "p")).
Proof.
  apply (decoration_requires_sources offline defaults (shadowing "p")
           (shadowingDecorated "p") start start).
  reflexivity.
Defined.

Lemma decoration_requests_witness :
  let r := updateMenuItems online defaults mixedMenu startOnline in
  requests (log (fst r)) = 1%nat.
Proof.
  apply (decoration_requests online defaults mixedMenu
           match snd (updateMenuItems online defaults mixedMenu startOnline) with
           | Normal menu' => menu'
           | Throw _ => []
           end
           startOnline
           (fst (updateMenuItems online defaults mixedMenu startOnline))).
  reflexivity.
Defined.

Lemma inline_menu_needs_no_host_witness :
  exists menu' m,
    updateMenuItems offline defaults (shadowing "p") start
    = (start, Normal menu') /\
    flattenMenuOptions menu' = Some m.
Proof.
  apply (inline_menu_needs_no_host offline defaults (shadowing "p") start).
  reflexivity.
Defined.


